(** * Time-period extraction and temperature alignment of
      figure--indoorheating/utils.py

    Shallow embedding of [find_target_temp_index], [filter_time_periods] and
    the clipping loop of [create_shorter_version].

    Representation choices:
    - a timestamp is a [Z] count of seconds; [(t - t0).total_seconds()] is
      the difference of two such counts;
    - a sensor reading ([astype(float)]) is a [Z]; the code only compares
      readings with [<=] and subtracts times, so an ordered ring suffices;
    - a pandas DataFrame is its list of rows in row order, each row carrying
      its index label, its 'Datetime' value and its sensor columns; the
      column names of the table are kept alongside;
    - a Python dict is an association list in insertion order, updated by
      [dict_set] (overwrite in place, or append);
    - an exception is a value of [exn]; the messages printed by the code
      are kept as a list of [msg]. *)

From Stdlib Require Import ZArith List String Bool Lia Sorting.Sorted.
From Stdlib Require Floats Uint63 DecimalString DecimalN.
Import ListNotations.
Open Scope Z_scope.

Module Utils.

(** ** Exceptions and the error monad *)

Inductive exn : Type :=
| KeyError (key : string)         (* df[col], dict[key] *)
| KeyErrorLabel (label : nat)     (* df.loc[label, ...] *)
| TypeError                       (* None - 0 *)
| ZeroDivisionError.              (* x / 0 *)

Inductive result (A : Type) : Type :=
| Ok (a : A)
| Err (e : exn).
Arguments Ok {A} a.
Arguments Err {A} e.

Definition bind {A B : Type} (m : result A) (k : A -> result B) : result B :=
  match m with
  | Ok a => k a
  | Err e => Err e
  end.

Notation "x <- m ;; k" := (bind m (fun x => k))
  (at level 61, m at next level, right associativity).

(** [str(KeyError(k))] is the key in quotes. *)
Definition exn_message (e : exn) : string :=
  match e with
  | KeyError k => "'" ++ k ++ "'"
  | KeyErrorLabel _ => "label"
  | TypeError => "unsupported operand type(s) for -: 'NoneType' and 'int'"
  | ZeroDivisionError => "division by zero"
  end.

(** [s] occurs in the message of [e]. *)
Definition mentions (e : exn) (s : string) : bool :=
  match String.index 0 s (exn_message e) with
  | Some _ => true
  | None => false
  end.

(** ** Data *)

Record Row : Type := {
  r_index : nat;            (* index label, RangeIndex after read_csv *)
  r_time : Z;               (* row['Datetime'] *)
  r_vals : string -> Z      (* the sensor columns *)
}.

Record DataFrame : Type := {
  df_columns : list string;
  df_rows : list Row
}.

(** One entry of [time_periods]: {'start': ..., 'end': ..., 'data': ...}. *)
Record Period : Type := {
  p_start : Z;
  p_end : Z;
  p_data : DataFrame
}.

(** A row of [period_df]: a copied source row plus the 'seconds' column. *)
Record PRow : Type := {
  pr_row : Row;
  pr_seconds : Z
}.

Record PeriodFrame : Type := {
  pf_columns : list string;
  pf_rows : list PRow
}.

(** [period_df[col]] after [period_df['seconds'] = ...]: the 'seconds'
    column is the one the code wrote. *)
Definition pf_has_column (pf : PeriodFrame) (c : string) : bool :=
  String.eqb c "seconds" || existsb (String.eqb c) (pf_columns pf).

Definition pr_value (c : string) (r : PRow) : Z :=
  if String.eqb c "seconds" then pr_seconds r else r_vals (pr_row r) c.

(** ** Dicts *)

Fixpoint dict_get {V : Type} (k : string) (d : list (string * V)) : option V :=
  match d with
  | [] => None
  | (k', v) :: d' => if String.eqb k k' then Some v else dict_get k d'
  end.

Fixpoint dict_set {V : Type} (k : string) (v : V) (d : list (string * V))
  : list (string * V) :=
  match d with
  | [] => [(k, v)]
  | (k', v') :: d' =>
      if String.eqb k k' then (k, v) :: d' else (k', v') :: dict_set k v d'
  end.

(** ** Printed messages *)

Inductive msg : Type :=
| Extracted (name : string) (rows : nat)
| NoData (name : string)
| FoundRef (name : string) (seconds : Z)
| WarnNotFound (name : string)
| AvgRef (total : Z) (count : nat)
| Shifted (name : string) (shift : Z)
| WarnSkip.

(** ** find_target_temp_index *)

(** [df.index[mask].min()] *)
Definition index_min (i : nat) (is : list nat) : nat := fold_left Nat.min is i.

(** [mask = df[temp_col].astype(float) <= target_temp;
     return df.index[mask].min() if mask.any() else None] *)
Definition find_target_temp_index (df : PeriodFrame) (temp_col : string)
    (target_temp : Z) : result (option nat) :=
  if pf_has_column df temp_col then
    match map (fun r => r_index (pr_row r))
              (filter (fun r => pr_value temp_col r <=? target_temp) (pf_rows df)) with
    | [] => Ok None
    | i :: is => Ok (Some (index_min i is))
    end
  else Err (KeyError temp_col).

(** [period_df.loc[target_idx, 'seconds']] *)
Definition loc_seconds (df : PeriodFrame) (label : nat) : result Z :=
  match find (fun r => Nat.eqb (r_index (pr_row r)) label) (pf_rows df) with
  | Some r => Ok (pr_seconds r)
  | None => Err (KeyErrorLabel label)
  end.

(** ** filter_time_periods *)

Record St : Type := {
  period_data : list (string * PeriodFrame);
  reference_points : list (string * option Z);
  log : list msg
}.

Definition st_init : St := {| period_data := []; reference_points := []; log := [] |}.

(** [mask = (Datetime >= start_time) & (Datetime <= end_time)] *)
Definition in_window (start_time end_time : Z) (r : Row) : bool :=
  (start_time <=? r_time r) && (r_time r <=? end_time).

(** The rows of [source_data[mask]] for one period. *)
Definition selection (start_offset : Z) (tr : Period) : list Row :=
  filter (in_window (p_start tr - start_offset) (p_end tr)) (df_rows (p_data tr)).

(** [period_df['seconds'] = (Datetime - Datetime.iloc[0]).dt.total_seconds();
     period_df['seconds'] = period_df['seconds'] - start_offset] *)
Definition relative_rows (start_offset t0 : Z) (rows : list Row) : list PRow :=
  map (fun r => {| pr_row := r; pr_seconds := (r_time r - t0) - start_offset |}) rows.

(** The body of [for period_name, time_range in time_periods.items()]. *)
Definition process_period (start_offset : Z) (align_to_temp : bool)
    (target_temp : option Z) (apparatus_bottom_col : option string)
    (st : St) (name : string) (tr : Period) : result St :=
  match selection start_offset tr with
  | [] =>
      Ok {| period_data := period_data st;
            reference_points := reference_points st;
            log := log st ++ [NoData name] |}
  | (r0 :: _) as sel =>
      let period_df :=
        {| pf_columns := df_columns (p_data tr);
           pf_rows := relative_rows start_offset (r_time r0) sel |} in
      let pd := dict_set name period_df (period_data st) in
      let lg := log st ++ [Extracted name (List.length sel)] in
      match align_to_temp, target_temp, apparatus_bottom_col with
      | true, Some t, Some c =>
          target_idx <- find_target_temp_index period_df c t ;;
          match target_idx with
          | Some i =>
              target_seconds <- loc_seconds period_df i ;;
              Ok {| period_data := pd;
                    reference_points :=
                      dict_set name (Some target_seconds) (reference_points st);
                    log := lg ++ [FoundRef name target_seconds] |}
          | None =>
              Ok {| period_data := pd;
                    reference_points := dict_set name None (reference_points st);
                    log := lg ++ [WarnNotFound name] |}
          end
      | _, _, _ =>
          Ok {| period_data := pd; reference_points := reference_points st; log := lg |}
      end
  end.

(** The loop over [time_periods.items()]. *)
Fixpoint collect (start_offset : Z) (align_to_temp : bool) (target_temp : option Z)
    (apparatus_bottom_col : option string) (st : St)
    (time_periods : list (string * Period)) : result St :=
  match time_periods with
  | [] => Ok st
  | (name, tr) :: rest =>
      st' <- process_period start_offset align_to_temp target_temp
               apparatus_bottom_col st name tr ;;
      collect start_offset align_to_temp target_temp apparatus_bottom_col st' rest
  end.

(** [all(time_point is not None for time_point in reference_points.values())] *)
Definition all_found (rp : list (string * option Z)) : bool :=
  forallb (fun kv => match snd kv with Some _ => true | None => false end) rp.

(** [sum(reference_points.values())] *)
Definition sum_refs (rp : list (string * option Z)) : Z :=
  fold_left (fun acc kv => acc + match snd kv with Some v => v | None => 0 end) rp 0.

(** [df['seconds'] = df['seconds'] - time_shift] *)
Definition shift_frame (time_shift : Z) (df : PeriodFrame) : PeriodFrame :=
  {| pf_columns := pf_columns df;
     pf_rows := map (fun r => {| pr_row := pr_row r; pr_seconds := pr_seconds r - time_shift |})
                    (pf_rows df) |}.

(** [for period_name, df in period_data.items(): ...]: the shift loop. *)
Fixpoint shift_periods (rp : list (string * option Z))
    (pd : list (string * PeriodFrame)) : result (list (string * PeriodFrame) * list msg) :=
  match pd with
  | [] => Ok ([], [])
  | (name, df) :: pd' =>
      match dict_get name rp with
      | None => Err (KeyError name)
      | Some None => Err TypeError
      | Some (Some ref_time) =>
          let time_shift := ref_time - 0 in
          rest <- shift_periods rp pd' ;;
          Ok ((name, shift_frame time_shift df) :: fst rest,
              Shifted name time_shift :: snd rest)
      end
  end.

(** [filter_time_periods]: the returned [period_data] and the printed messages. *)
Definition filter_time_periods (time_periods : list (string * Period))
    (start_offset : Z) (align_to_temp : bool) (target_temp : option Z)
    (apparatus_bottom_col : option string)
    : result (list (string * PeriodFrame) * list msg) :=
  st <- collect start_offset align_to_temp target_temp apparatus_bottom_col
          st_init time_periods ;;
  if align_to_temp && all_found (reference_points st) then
    let n := List.length (reference_points st) in
    if Nat.eqb n 0 then Err ZeroDivisionError
    else
      shifted <- shift_periods (reference_points st) (period_data st) ;;
      Ok (fst shifted, log st ++ AvgRef (sum_refs (reference_points st)) n :: snd shifted)
  else if align_to_temp then Ok (period_data st, log st ++ [WarnSkip])
  else Ok (period_data st, log st).

(** ** Windowing *)

(** The line handed to [ax.plot] for one period and sensor:
    [df_filtered = df[(df['seconds'] >= min_seconds) & (df['seconds'] <= max_seconds)]]
    and [(df_filtered['seconds'], df_filtered[col])]. *)
Definition plot_line (min_seconds max_seconds : Z) (col : string) (df : PeriodFrame)
    : list (Z * Z) :=
  map (fun r => (pr_seconds r, pr_value col r))
      (filter (fun r => (min_seconds <=? pr_seconds r) && (pr_seconds r <=? max_seconds))
              (pf_rows df)).

(** [create_shorter_version]: per line,
    [mask = (x_data >= -60) & (x_data <= mins*60)]. *)
Definition clip_line (mins : Z) (line : list (Z * Z)) : list (Z * Z) :=
  filter (fun xy => (-60 <=? fst xy) && (fst xy <=? mins * 60)) line.

End Utils.

(** ** Concrete runs *)

Module Samples.
Import Utils.
Local Open Scope string_scope.

(** Samples every 10 s from 870 to 1600; column "bottom" reads 50 before
    1050 and 40 from 1050 on; the index is pandas' RangeIndex. *)
Definition bottom_at (t : Z) : string -> Z :=
  fun c => if String.eqb c "bottom" then (if Z.ltb t 1050 then 50 else 40) else 0.

Definition cooling_rows : list Row :=
  map (fun k => {| r_index := k; r_time := 870 + 10 * Z.of_nat k;
                   r_vals := bottom_at (870 + 10 * Z.of_nat k) |}) (seq 0 74).

Definition cooling : DataFrame := {| df_columns := ["bottom"]; df_rows := cooling_rows |}.

Definition period_A : Period := {| p_start := 1000; p_end := 1600; p_data := cooling |}.

(** A second period on a table that never drops to 44. *)
Definition warm : DataFrame :=
  {| df_columns := ["bottom"];
     df_rows := map (fun k => {| r_index := k; r_time := 870 + 10 * Z.of_nat k;
                                 r_vals := fun _ => 50 |}) (seq 0 74) |}.

Definition period_B : Period := {| p_start := 1000; p_end := 1600; p_data := warm |}.

Definition batch_A : list (string * Period) := [("A", period_A)].

Definition batch_AB : list (string * Period) := [("A", period_A); ("B", period_B)].

Definition batch_BORO : list (string * Period) := [("BORO", period_A)].

End Samples.

(** * The figure scripts and the rest of utils.py

    The scripts figure_indoorheating.py and figure_indoorheating_65c.py
    carry their own copies of the extraction loop and of [adjust_color];
    figure_indoorheating_65c_mar30.py and figure_indoorheating_combined.py
    call the utils.py functions. *)

Module Scripts.
Import Utils PrimFloat Ascii.
Local Set Warnings "-inexact-float".
Local Open Scope string_scope.

(** ** figure_indoorheating.py, [create_cooling_rate_comparison]: the inline
    loop. Its local [find_target_temp_index] has the same body as the one
    of utils.py, [Utils.find_target_temp_index]; the reference point is
    looked up for every non-empty period, with [TARGET_TEMP] and
    [apparatus_bottom_col = temp_columns[3]]. *)
Definition process_period_cooling (start_offset TARGET_TEMP : Z)
    (apparatus_bottom_col : string) (st : St) (period_name : string)
    (time_range : Period) : result St :=
  match selection start_offset time_range with
  | [] =>
      Ok {| period_data := period_data st;
            reference_points := reference_points st;
            log := (log st ++ [NoData period_name])%list |}
  | (r0 :: _) as sel =>
      let period_df :=
        {| pf_columns := df_columns (p_data time_range);
           pf_rows := relative_rows start_offset (r_time r0) sel |} in
      let pd := dict_set period_name period_df (period_data st) in
      let lg := (log st ++ [Extracted period_name (List.length sel)])%list in
      target_idx <- find_target_temp_index period_df apparatus_bottom_col TARGET_TEMP ;;
      match target_idx with
      | Some i =>
          target_seconds <- loc_seconds period_df i ;;
          Ok {| period_data := pd;
                reference_points :=
                  dict_set period_name (Some target_seconds) (reference_points st);
                log := (lg ++ [FoundRef period_name target_seconds])%list |}
      | None =>
          Ok {| period_data := pd;
                reference_points := dict_set period_name None (reference_points st);
                log := (lg ++ [WarnNotFound period_name])%list |}
      end
  end.

Fixpoint collect_cooling (start_offset TARGET_TEMP : Z) (apparatus_bottom_col : string)
    (st : St) (time_periods : list (string * Period)) : result St :=
  match time_periods with
  | [] => Ok st
  | (period_name, time_range) :: rest =>
      st' <- process_period_cooling start_offset TARGET_TEMP apparatus_bottom_col
               st period_name time_range ;;
      collect_cooling start_offset TARGET_TEMP apparatus_bottom_col st' rest
  end.

(** The loop and the second alignment, [if all(...): ... else: print(...)]:
    the returned [period_data] and the printed messages. *)
Definition align_cooling (time_periods : list (string * Period))
    (start_offset TARGET_TEMP : Z) (apparatus_bottom_col : string)
    : result (list (string * PeriodFrame) * list msg) :=
  st <- collect_cooling start_offset TARGET_TEMP apparatus_bottom_col st_init time_periods ;;
  if all_found (reference_points st) then
    let n := List.length (reference_points st) in
    if Nat.eqb n 0 then Err ZeroDivisionError
    else
      shifted <- shift_periods (reference_points st) (period_data st) ;;
      Ok (fst shifted, (log st ++ AvgRef (sum_refs (reference_points st)) n :: snd shifted)%list)
  else Ok (period_data st, (log st ++ [WarnSkip])%list).

(** ** figure_indoorheating_65c.py, [create_cooling_rate_comparison]: the
    inline loop, which only extracts the periods. *)
Definition extract_step (start_offset : Z)
    (acc : list (string * PeriodFrame) * list msg) (item : string * Period)
    : list (string * PeriodFrame) * list msg :=
  let '(period_data, lg) := acc in
  let '(period_name, time_range) := item in
  match selection start_offset time_range with
  | [] => (period_data, (lg ++ [NoData period_name])%list)
  | (r0 :: _) as sel =>
      (dict_set period_name
         {| pf_columns := df_columns (p_data time_range);
            pf_rows := relative_rows start_offset (r_time r0) sel |} period_data,
       (lg ++ [Extracted period_name (List.length sel)])%list)
  end.

Definition extract_periods (time_periods : list (string * Period)) (start_offset : Z)
    : list (string * PeriodFrame) * list msg :=
  fold_left (extract_step start_offset) time_periods ([], []).

(** ** figure_indoorheating_combined.py, [create_combined_cooling_comparison] *)

(** [{**a, **b}] *)
Definition dict_merge {V : Type} (a b : list (string * V)) : list (string * V) :=
  fold_left (fun acc kv => dict_set (fst kv) (snd kv) acc) b a.

(** [period_data_original = filter_time_periods(original_time_periods,
     start_offset=start_offset, align_to_temp=True, target_temp=TARGET_TEMP,
     apparatus_bottom_col=apparatus_bottom_col)];
    [period_data_65c = filter_time_periods(data_65c_time_periods,
     start_offset=start_offset, align_to_temp=False)];
    [period_data = {**period_data_original, **period_data_65c}]. *)
Definition combined_period_data (original_time_periods data_65c_time_periods
    : list (string * Period)) (start_offset TARGET_TEMP : Z)
    (apparatus_bottom_col : string) : result (list (string * PeriodFrame) * list msg) :=
  original <- filter_time_periods original_time_periods start_offset true
                (Some TARGET_TEMP) (Some apparatus_bottom_col) ;;
  p65 <- filter_time_periods data_65c_time_periods start_offset false None None ;;
  Ok (dict_merge (fst original) (fst p65), (snd original ++ snd p65)%list).

(** [s.endswith(suffix)] *)
Definition ends_with (suffix s : string) : bool :=
  (String.length suffix <=? String.length s)%nat &&
  String.eqb (substring (String.length s - String.length suffix)
                        (String.length suffix) s) suffix.

(** [needle in s] *)
Fixpoint contains (needle s : string) : bool :=
  prefix needle s ||
  match s with
  | EmptyString => false
  | String _ s' => contains needle s'
  end.

(** The legend label: [f"{period_name[:-4]} (65°C)"] for the '_65c'
    periods, [f"{period_name}"] otherwise (strings in UTF-8). *)
Definition label_of (period_name : string) : string :=
  if ends_with "_65c" period_name
  then substring 0 (String.length period_name - 4) period_name ++ " (65°C)"
  else period_name.

Definition ordered_periods : list string :=
  ["NOPANE"; "CAF2"; "CAF2x4"; "CAF2x4_65c"; "BORO"; "BOROx4"; "BOROx4_65c"].

(** A line drawn by [ax.plot]: its label and its (x, y) points. *)
Record Line : Type := {
  l_label : string;
  l_points : list (Z * Z)
}.

(** The lines of the subplot of sensor [col]: one per period of
    [ordered_periods] found in [period_data], in that order. *)
Definition combined_lines (min_seconds max_seconds : Z) (col : string)
    (period_data : list (string * PeriodFrame)) : list Line :=
  flat_map (fun period_name =>
              match dict_get period_name period_data with
              | Some df => [{| l_label := label_of period_name;
                               l_points := plot_line min_seconds max_seconds col df |}]
              | None => []
              end) ordered_periods.

(** [create_65c_focused_version]: of each subplot, the lines whose label
    contains '65°C', with [mask = (x_data >= -30) & (x_data <= mins_end*60)]. *)
Definition focus_lines (mins_end : Z) (lines : list Line) : list Line :=
  map (fun line => {| l_label := l_label line;
                      l_points := filter (fun xy => Z.leb (-30) (fst xy) && Z.leb (fst xy) (mins_end * 60))
                                         (l_points line) |})
      (filter (fun line => contains "65°C" (l_label line)) lines).

(** ** format_time *)

(** [f"{n:d}"] for [n >= 0]. *)
Definition dec (n : N) : string := DecimalString.NilEmpty.string_of_uint (N.to_uint n).

(** The zero padding of [:02d] and [:02x] for a non-negative number. *)
Definition pad02 (s : string) : string :=
  if (String.length s <? 2)%nat then "0" ++ s else s.

(** [format_time(seconds, _)] at a whole number of seconds (the tick
    positions of the [MultipleLocator]s); there [seconds_abs // 60] and
    [seconds_abs % 60] are exact. *)
Definition format_time (seconds : Z) : string :=
  let is_negative := Z.ltb seconds 0 in
  let seconds_abs := Z.abs seconds in
  let minutes := seconds_abs / 60 in
  let secs := seconds_abs mod 60 in
  if is_negative
  then "-" ++ pad02 (dec (Z.to_N minutes)) ++ ":" ++ pad02 (dec (Z.to_N secs))
  else pad02 (dec (Z.to_N minutes)) ++ ":" ++ pad02 (dec (Z.to_N secs)).

(** ** adjust_color *)

Definition hex_value (c : ascii) : option Z :=
  let n := Z.of_nat (nat_of_ascii c) in
  if Z.leb 48 n && Z.leb n 57 then Some (n - 48)          (* '0'..'9' *)
  else if Z.leb 97 n && Z.leb n 102 then Some (n - 87)    (* 'a'..'f' *)
  else if Z.leb 65 n && Z.leb n 70 then Some (n - 55)     (* 'A'..'F' *)
  else None.

Fixpoint int16_aux (s : string) (acc : Z) : option Z :=
  match s with
  | EmptyString => Some acc
  | String c s' =>
      match hex_value c with
      | Some d => int16_aux s' (16 * acc + d)
      | None => None
      end
  end.

(** [int(s, 16)] for a string of hexadecimal digits; [None] is the
    ValueError of the empty string and of other characters (the sign,
    surrounding blanks, '0x' and '_' that Python also accepts are left out). *)
Definition int16 (s : string) : option Z :=
  match s with
  | EmptyString => None
  | _ => int16_aux s 0
  end.

(** [float(c)] for a machine integer [c], exact below [2^53]. *)
Definition float_of_Z (c : Z) : float := of_uint63 (Uint63.of_Z c).

(** [int(x)]: truncation toward zero; [None] is the error on inf and nan. *)
Definition py_int (x : float) : option Z :=
  match FloatOps.Prim2SF x with
  | SpecFloat.S754_zero _ => Some 0
  | SpecFloat.S754_finite s m e =>
      let v := if Z.leb 0 e then Z.pos m * 2 ^ e else Z.pos m / 2 ^ (- e) in
      Some (if s then - v else v)
  | _ => None
  end.

(** [max(0, int(c * 0.7))] *)
Definition darken (c : Z) : option Z :=
  option_map (Z.max 0) (py_int (PrimFloat.mul (float_of_Z c) 0.7)).

Definition hex_char (d : Z) : ascii :=
  ascii_of_nat (Z.to_nat (if Z.ltb d 10 then 48 + d else 87 + d)).

Fixpoint hex_aux (fuel : nat) (n : Z) (acc : string) : string :=
  match fuel with
  | O => acc
  | S f =>
      let acc' := String (hex_char (n mod 16)) acc in
      if Z.ltb n 16 then acc' else hex_aux f (n / 16) acc'
  end.

(** [f"{n:x}"] for [n >= 0]. *)
Definition hex (n : Z) : string := hex_aux (S (Z.to_nat (Z.log2 n))) n "".

(** [f'#{rgb[0]:02x}{rgb[1]:02x}{rgb[2]:02x}'] *)
Definition rgb_string (r g b : Z) : string :=
  "#" ++ pad02 (hex r) ++ pad02 (hex g) ++ pad02 (hex b).

(** The darker branch:
    [rgb = [int(base_color[i:i+2], 16) for i in range(1, 7, 2)];
     rgb = [max(0, int(c * 0.7)) for c in rgb]]. *)
Definition darker (base_color : string) : option string :=
  match int16 (substring 1 2 base_color), int16 (substring 3 2 base_color),
        int16 (substring 5 2 base_color) with
  | Some r, Some g, Some b =>
      match darken r, darken g, darken b with
      | Some r', Some g', Some b' => Some (rgb_string r' g' b')
      | _, _, _ => None
      end
  | _, _, _ => None
  end.

(** utils.py, [adjust_color(base_color, darkness, sensor_col, period_name,
    temp_columns)]; [None] is a raised exception ([temp_columns[3]] out of
    range, or a failed conversion). *)
Definition adjust_color (base_color : string) (darkness : float)
    (sensor_col period_name : string) (temp_columns : list string) : option string :=
  match nth_error temp_columns 3 with
  | None => None
  | Some c3 =>
      if String.eqb sensor_col c3 then
        if existsb (String.eqb period_name)
                   ["BOROx4"; "CAF2x4"; "BOROx4_65c"; "CAF2x4_65c"]
        then Some "#000000" else Some "#808080"
      else if PrimFloat.ltb 1.0 darkness then darker base_color
      else Some base_color
  end.


(** figure_indoorheating_65c.py, the local [adjust_color]: no darkness test. *)
Definition adjust_color_65c (temp_columns : list string) (base_color : string)
    (darkness : float) (sensor_col period_name : string) : option string :=
  match nth_error temp_columns 3 with
  | None => None
  | Some c3 => if String.eqb sensor_col c3 then Some "#000000" else darker base_color
  end.



End Scripts.

(** * Proofs *)

Module Facts.
Import Utils.

(** The reference point the loop records for one period frame:
    [find_target_temp_index] followed by [.loc[target_idx, 'seconds']]. *)
Definition refval (c : string) (t : Z) (pf : PeriodFrame) : result (option Z) :=
  idx <- find_target_temp_index pf c t ;;
  match idx with
  | Some i => s <- loc_seconds pf i ;; Ok (Some s)
  | None => Ok None
  end.

(** The frame the loop stores for one period, [None] when it is skipped. *)
Definition frame_of (start_offset : Z) (tr : Period) : option PeriodFrame :=
  match selection start_offset tr with
  | [] => None
  | (r0 :: _) as sel =>
      Some {| pf_columns := df_columns (p_data tr);
              pf_rows := relative_rows start_offset (r_time r0) sel |}
  end.

(** ** Dicts *)

Lemma dict_get_In {V : Type} (k : string) (v : V) d :
  dict_get k d = Some v -> In (k, v) d.
Proof.
  induction d as [|[k' v'] d IH]; simpl; [discriminate|].
  destruct (String.eqb_spec k k') as [->|_]; [intros [= ->]; left; reflexivity|].
  intros H; right; exact (IH H).
Qed.

Lemma In_dict_get {V : Type} (k : string) (v : V) d :
  NoDup (map fst d) -> In (k, v) d -> dict_get k d = Some v.
Proof.
  induction d as [|[k' v'] d IH]; simpl; [contradiction|].
  intros Hnd Hin; inversion Hnd as [|? ? Hnotin Hnd']; subst.
  destruct Hin as [[= -> ->]|Hin].
  - rewrite String.eqb_refl; reflexivity.
  - destruct (String.eqb_spec k k') as [->|_].
    + exfalso; apply Hnotin; apply (in_map fst _ _ Hin).
    + exact (IH Hnd' Hin).
Qed.

Lemma dict_set_In {V : Type} (k : string) (v : V) d k' v' :
  In (k', v') (dict_set k v d) -> (k', v') = (k, v) \/ In (k', v') d.
Proof.
  induction d as [|[k0 v0] d IH]; simpl.
  - intros [H|[]]; left; congruence.
  - destruct (String.eqb k k0); simpl.
    + intros [H|H]; [left; congruence|right; right; exact H].
    + intros [H|H]; [right; left; exact H|].
      destruct (IH H) as [H'|H']; [left|right; right]; assumption.
Qed.

Lemma dict_set_keys_In {V : Type} (k : string) (v : V) d k' :
  In k' (map fst (dict_set k v d)) <-> k' = k \/ In k' (map fst d).
Proof.
  induction d as [|[k0 v0] d IH]; simpl.
  - intuition.
  - destruct (String.eqb_spec k k0) as [->|_]; simpl; rewrite ?IH; intuition.
Qed.

Lemma dict_set_NoDup {V : Type} (k : string) (v : V) d :
  NoDup (map fst d) -> NoDup (map fst (dict_set k v d)).
Proof.
  induction d as [|[k0 v0] d IH]; simpl; intros Hnd.
  - constructor; [intros []|constructor].
  - inversion Hnd as [|? ? Hnotin Hnd']; subst.
    destruct (String.eqb_spec k k0) as [->|Hne]; simpl.
    + constructor; assumption.
    + constructor; [|exact (IH Hnd')].
      rewrite dict_set_keys_In; intros [->|H]; [apply Hne; reflexivity|contradiction].
Qed.

(** Two dicts with the same keys in the same order, updated at the same key. *)
Lemma dict_set_Forall2 {V W : Type} (P : V -> W -> Prop) k v w
    (d : list (string * V)) (e : list (string * W)) :
  Forall2 (fun a b => fst a = fst b /\ P (snd a) (snd b)) d e ->
  P v w ->
  Forall2 (fun a b => fst a = fst b /\ P (snd a) (snd b))
          (dict_set k v d) (dict_set k w e).
Proof.
  intros H Hp; induction H as [|[k1 v1] [k2 w2] d e [Hk Hpv] H IH]; simpl in *.
  - repeat constructor; assumption.
  - subst k2; destruct (String.eqb k k1); constructor; simpl; auto.
Qed.

Lemma Forall2_keys {V W : Type} (P : V -> W -> Prop)
    (d : list (string * V)) (e : list (string * W)) :
  Forall2 (fun a b => fst a = fst b /\ P (snd a) (snd b)) d e ->
  map fst d = map fst e.
Proof.
  induction 1 as [|a b d e [Hk _] _ IH]; simpl; congruence.
Qed.

(** ** One period of the loop *)

Lemma process_period_frame off a t c st n tr st' :
  process_period off a t c st n tr = Ok st' ->
  match frame_of off tr with
  | None => period_data st' = period_data st /\
            reference_points st' = reference_points st
  | Some pf =>
      period_data st' = dict_set n pf (period_data st) /\
      match a, t, c with
      | true, Some t0, Some c0 =>
          exists v, refval c0 t0 pf = Ok v /\
                    reference_points st' = dict_set n v (reference_points st)
      | _, _, _ => reference_points st' = reference_points st
      end
  end.
Proof.
  unfold process_period, frame_of.
  destruct (selection off tr) as [|r0 rest]; [intros [= <-]; simpl; auto|].
  destruct a, t as [t0|], c as [c0|]; try (intros [= <-]; simpl; auto; fail).
  unfold refval.
  destruct (find_target_temp_index _ c0 t0) as [[i|]|e]; simpl; [|intros [= <-]; simpl; eauto|discriminate].
  destruct (loc_seconds _ i) as [r|e]; simpl; [intros [= <-]; simpl; eauto|discriminate].
Qed.

Lemma process_period_err off a t c st n tr e :
  process_period off a t c st n tr = Err e ->
  exists t0 c0 pf, a = true /\ t = Some t0 /\ c = Some c0 /\
                   frame_of off tr = Some pf /\ refval c0 t0 pf = Err e.
Proof.
  unfold process_period, frame_of.
  destruct (selection off tr) as [|r0 rest]; [discriminate|].
  destruct a, t as [t0|], c as [c0|]; try discriminate.
  intros H; exists t0, c0; eexists; repeat split.
  unfold refval; revert H.
  destruct (find_target_temp_index _ c0 t0) as [[i|]|e']; simpl;
    [destruct (loc_seconds _ i); simpl; [discriminate|congruence]|discriminate|congruence].
Qed.

(** ** The reference lookup *)

Lemma index_min_In (i : nat) is : In (index_min i is) (i :: is).
Proof.
  unfold index_min; revert i; induction is as [|j is IH]; intros i; simpl; [left; reflexivity|].
  destruct (IH (Nat.min i j)) as [H|H].
  - destruct (Nat.min_dec i j) as [E|E]; rewrite E in *; simpl; auto.
  - simpl; auto.
Qed.

Lemma loc_seconds_found (df : PeriodFrame) (s : PRow) :
  In s (pf_rows df) ->
  exists s', loc_seconds df (r_index (pr_row s)) = Ok (pr_seconds s') /\ In s' (pf_rows df).
Proof.
  unfold loc_seconds; intros Hin.
  destruct (find _ (pf_rows df)) as [s'|] eqn:Hf.
  - exists s'; split; [reflexivity|]. exact (proj1 (find_some _ _ Hf)).
  - exfalso; pose proof (find_none _ _ Hf s Hin) as H; simpl in H.
    rewrite Nat.eqb_refl in H; discriminate.
Qed.

Lemma refval_err c t pf e :
  refval c t pf = Err e -> e = KeyError c /\ pf_has_column pf c = false.
Proof.
  unfold refval, find_target_temp_index.
  destruct (pf_has_column pf c) eqn:Hc; simpl; [|intros [= <-]; auto].
  destruct (map _ (filter _ (pf_rows pf))) as [|i is] eqn:Hm; simpl; [discriminate|].
  assert (Hin : In (index_min i is) (map (fun r => r_index (pr_row r))
                   (filter (fun r => pr_value c r <=? t) (pf_rows pf))))
    by (rewrite Hm; apply index_min_In).
  apply in_map_iff in Hin as [s [Hs Hin]]; apply filter_In in Hin as [Hin _].
  destruct (loc_seconds_found pf s Hin) as [s' [Hl _]]; rewrite Hs in Hl.
  rewrite Hl; discriminate.
Qed.

Lemma refval_missing c t pf :
  pf_has_column pf c = false -> refval c t pf = Err (KeyError c).
Proof.
  unfold refval, find_target_temp_index; intros ->; reflexivity.
Qed.

Lemma refval_some c t pf r :
  refval c t pf = Ok (Some r) -> exists s, In s (pf_rows pf) /\ pr_seconds s = r.
Proof.
  unfold refval.
  destruct (find_target_temp_index pf c t) as [[i|]|e]; simpl; try discriminate.
  unfold loc_seconds.
  destruct (find _ (pf_rows pf)) as [s|] eqn:Hf; simpl; [|discriminate].
  intros [= <-]; exists s; split; [exact (proj1 (find_some _ _ Hf))|reflexivity].
Qed.

(** ** The loop over the periods *)

Lemma collect_err off t c st tps e :
  collect off true (Some t) (Some c) st tps = Err e -> e = KeyError c.
Proof.
  revert st; induction tps as [|[n tr] tps IH]; intros st; simpl; [discriminate|].
  destruct (process_period off true (Some t) (Some c) st n tr) as [st1|e1] eqn:Hp; simpl.
  - apply IH.
  - intros [= <-].
    destruct (process_period_err _ _ _ _ _ _ _ _ Hp) as (t0 & c0 & pf & _ & [= <-] & [= <-] & _ & Hr).
    exact (proj1 (refval_err _ _ _ _ Hr)).
Qed.

Lemma collect_missing off t c st tps n tr pf :
  In (n, tr) tps -> frame_of off tr = Some pf -> pf_has_column pf c = false ->
  collect off true (Some t) (Some c) st tps = Err (KeyError c).
Proof.
  intros Hin Hf Hc; revert st; induction tps as [|[n0 tr0] tps IH]; intros st; simpl;
    [contradiction|].
  destruct (process_period off true (Some t) (Some c) st n0 tr0) as [st1|e1] eqn:Hp; simpl.
  - destruct Hin as [[= -> ->]|Hin]; [|apply IH; exact Hin].
    pose proof (process_period_frame _ _ _ _ _ _ _ _ Hp) as Hs; rewrite Hf in Hs.
    destruct Hs as [_ (v & Hv & _)]; rewrite refval_missing in Hv by exact Hc; discriminate.
  - destruct (process_period_err _ _ _ _ _ _ _ _ Hp) as (t0 & c0 & pf0 & _ & [= <-] & [= <-] & _ & Hr).
    rewrite (proj1 (refval_err _ _ _ _ Hr)); reflexivity.
Qed.

Lemma collect_frames off a t c tps :
  forall st st', collect off a t c st tps = Ok st' ->
  forall n pf, In (n, pf) (period_data st') ->
  In (n, pf) (period_data st) \/ exists tr, In (n, tr) tps /\ frame_of off tr = Some pf.
Proof.
  induction tps as [|[n0 tr0] tps IH]; intros st st'; simpl; [intros [= <-]; auto|].
  destruct (process_period off a t c st n0 tr0) as [st1|e1] eqn:Hp; simpl; [|discriminate].
  intros Hc n pf Hin.
  destruct (IH _ _ Hc n pf Hin) as [H1|(tr & Htr & Hf)]; [|right; eauto].
  pose proof (process_period_frame _ _ _ _ _ _ _ _ Hp) as Hs.
  destruct (frame_of off tr0) as [pf0|] eqn:Hf0; destruct Hs as [Hpd _];
    rewrite Hpd in H1; [|auto].
  destruct (dict_set_In _ _ _ _ _ H1) as [[= -> ->]|H2]; [right; eauto|auto].
Qed.

Lemma collect_keys off a t c tps :
  forall st st', collect off a t c st tps = Ok st' ->
  (forall k, In k (map fst (period_data st)) -> In k (map fst (period_data st'))) /\
  (forall n tr, In (n, tr) tps -> frame_of off tr <> None ->
                In n (map fst (period_data st'))).
Proof.
  induction tps as [|[n0 tr0] tps IH]; intros st st'; simpl;
    [intros [= <-]; split; auto; contradiction|].
  destruct (process_period off a t c st n0 tr0) as [st1|e1] eqn:Hp; simpl; [|discriminate].
  intros Hc; destruct (IH _ _ Hc) as [Hmono Hnew].
  pose proof (process_period_frame _ _ _ _ _ _ _ _ Hp) as Hs.
  assert (Hstep : forall k, In k (map fst (period_data st)) -> In k (map fst (period_data st1))).
  { destruct (frame_of off tr0); destruct Hs as [Hpd _]; rewrite Hpd; [|auto].
    intros k Hk; apply dict_set_keys_In; auto. }
  split; [auto|].
  intros n tr [[= -> ->]|Hin] Hf; [|exact (Hnew n tr Hin Hf)].
  apply Hmono; destruct (frame_of off tr) as [pf|]; [|contradiction].
  destruct Hs as [Hpd _]; rewrite Hpd; apply dict_set_keys_In; auto.
Qed.

(** With alignment requested, [period_data] and [reference_points] have the
    same keys in the same order, and each recorded reference point is the
    lookup's result on the stored frame. *)
Definition AlignInv (c : string) (t : Z) (st : St) : Prop :=
  Forall2 (fun a b => fst a = fst b /\ refval c t (snd a) = Ok (snd b))
          (period_data st) (reference_points st) /\
  NoDup (map fst (reference_points st)).

Lemma AlignInv_init c t : AlignInv c t st_init.
Proof. split; constructor. Qed.

Lemma collect_align off t c tps :
  forall st st', collect off true (Some t) (Some c) st tps = Ok st' ->
  AlignInv c t st -> AlignInv c t st'.
Proof.
  induction tps as [|[n0 tr0] tps IH]; intros st st'; simpl; [intros [= <-]; auto|].
  destruct (process_period off true (Some t) (Some c) st n0 tr0) as [st1|e1] eqn:Hp;
    simpl; [|discriminate].
  intros Hc [HF Hnd]; apply (IH _ _ Hc); unfold AlignInv.
  pose proof (process_period_frame _ _ _ _ _ _ _ _ Hp) as Hs.
  destruct (frame_of off tr0) as [pf0|].
  - destruct Hs as [Hpd (v & Hv & Hrp)]; rewrite Hpd, Hrp; split.
    + apply (dict_set_Forall2 (fun pf v => refval c t pf = Ok v)); assumption.
    + apply dict_set_NoDup; exact Hnd.
  - destruct Hs as [Hpd Hrp]; rewrite Hpd, Hrp; split; assumption.
Qed.

Lemma process_period_norefs off a t c st n tr :
  a = false \/ t = None \/ c = None \/ frame_of off tr = None ->
  exists st1, process_period off a t c st n tr = Ok st1 /\
              reference_points st1 = reference_points st.
Proof.
  unfold process_period, frame_of.
  destruct (selection off tr) as [|r0 rest]; [intros _; eexists; split; reflexivity|].
  intros H; destruct a, t, c; try (eexists; split; reflexivity);
    exfalso; destruct H as [H|[H|[H|H]]]; discriminate.
Qed.

Lemma collect_norefs off a t c tps :
  a = false \/ t = None \/ c = None \/ Forall (fun p => frame_of off (snd p) = None) tps ->
  forall st, exists st', collect off a t c st tps = Ok st' /\
                         reference_points st' = reference_points st.
Proof.
  intros H; induction tps as [|[n0 tr0] tps IH]; intros st; simpl; [eexists; split; reflexivity|].
  assert (H0 : a = false \/ t = None \/ c = None \/ frame_of off tr0 = None).
  { destruct H as [H|[H|[H|H]]]; auto. inversion H; auto. }
  destruct (process_period_norefs off a t c st n0 tr0 H0) as (st1 & -> & Hr1); simpl.
  assert (H' : a = false \/ t = None \/ c = None \/
               Forall (fun p => frame_of off (snd p) = None) tps).
  { destruct H as [H|[H|[H|H]]]; auto. inversion H; auto. }
  destruct (IH H' st1) as (st' & Hc & Hr); exists st'; split; [exact Hc|congruence].
Qed.

(** ** Order facts *)

Lemma StronglySorted_filter {A : Type} (R : A -> A -> Prop) (f : A -> bool) l :
  StronglySorted R l -> StronglySorted R (filter f l).
Proof.
  induction 1 as [|a l _ IH HF]; simpl; [constructor|].
  destruct (f a); [|exact IH].
  constructor; [exact IH|].
  apply Forall_forall; intros x Hx; apply filter_In in Hx as [Hx _].
  exact (proj1 (Forall_forall _ _) HF x Hx).
Qed.

Lemma StronglySorted_map {A B : Type} (R : A -> A -> Prop) (R' : B -> B -> Prop)
    (g : A -> B) l :
  (forall a b, R a b -> R' (g a) (g b)) ->
  StronglySorted R l -> StronglySorted R' (map g l).
Proof.
  intros Hg; induction 1 as [|a l _ IH HF]; simpl; constructor; [exact IH|].
  apply Forall_map; eapply Forall_impl; [|exact HF]; auto.
Qed.

Lemma StronglySorted_map_inv {A B : Type} (R : B -> B -> Prop) (g : A -> B) l :
  StronglySorted R (map g l) -> StronglySorted (fun a b => R (g a) (g b)) l.
Proof.
  induction l as [|a l IH]; simpl; intros H; [constructor|].
  inversion H as [|? ? H1 H2]; subst; constructor; [exact (IH H1)|].
  rewrite Forall_map in H2; exact H2.
Qed.

Lemma StronglySorted_seq (a n : nat) : StronglySorted lt (seq a n).
Proof.
  revert a; induction n as [|n IH]; intros a; simpl; constructor; [apply IH|].
  apply Forall_forall; intros x Hx; apply in_seq in Hx; lia.
Qed.

Lemma index_min_least (i : nat) is :
  Forall (fun j => (i < j)%nat) is -> index_min i is = i.
Proof.
  unfold index_min; induction 1 as [|j is Hj _ IH]; simpl; [reflexivity|].
  rewrite Nat.min_l by lia; exact IH.
Qed.

Lemma find_label (rows : list PRow) (s : PRow) :
  StronglySorted (fun a b => (r_index (pr_row a) < r_index (pr_row b))%nat) rows ->
  In s rows ->
  find (fun r => Nat.eqb (r_index (pr_row r)) (r_index (pr_row s))) rows = Some s.
Proof.
  induction 1 as [|a l _ IH HF]; simpl; [contradiction|].
  intros [->|Hin]; [rewrite Nat.eqb_refl; reflexivity|].
  pose proof (proj1 (Forall_forall _ _) HF s Hin) as Hlt; cbv beta in Hlt.
  destruct (Nat.eqb_spec (r_index (pr_row a)) (r_index (pr_row s))) as [E|_]; [lia|].
  exact (IH Hin).
Qed.

Lemma find_filter {A : Type} (p : A -> bool) l : find p l = hd_error (filter p l).
Proof.
  induction l as [|a l IH]; simpl; [reflexivity|]; destruct (p a); auto.
Qed.

(** With increasing index labels (a RangeIndex), the lookup picks the first
    row in row order whose reading is at most the target. *)
Lemma refval_sorted c t (pf : PeriodFrame) :
  StronglySorted (fun a b => (r_index (pr_row a) < r_index (pr_row b))%nat) (pf_rows pf) ->
  pf_has_column pf c = true ->
  refval c t pf =
  Ok (option_map pr_seconds (find (fun r => pr_value c r <=? t) (pf_rows pf))).
Proof.
  intros Hs Hc; unfold refval, find_target_temp_index; rewrite Hc, find_filter.
  pose proof (StronglySorted_filter _ (fun r => pr_value c r <=? t) _ Hs) as Hs'.
  assert (Hsub : forall x, In x (filter (fun r => pr_value c r <=? t) (pf_rows pf)) ->
                           In x (pf_rows pf))
    by (intros x Hx; apply filter_In in Hx; tauto).
  destruct (filter (fun r => pr_value c r <=? t) (pf_rows pf)) as [|s rest]; simpl;
    [reflexivity|].
  inversion Hs' as [|? ? _ HF]; subst.
  rewrite index_min_least by (apply Forall_map; exact HF); simpl.
  unfold loc_seconds; rewrite (find_label _ s Hs (Hsub s (or_introl eq_refl))).
  reflexivity.
Qed.

Lemma find_first {A : Type} (p : A -> bool) l s :
  find p l = Some s <->
  exists pre post, l = pre ++ s :: post /\ Forall (fun x => p x = false) pre /\ p s = true.
Proof.
  split.
  - induction l as [|a l IH]; simpl; [discriminate|].
    destruct (p a) eqn:Ha; [intros [= <-]; exists [], l; auto|].
    intros H; destruct (IH H) as (pre & post & -> & Hpre & Hs).
    exists (a :: pre), post; auto.
  - intros (pre & post & -> & Hpre & Hs); induction Hpre as [|a pre Ha _ IH]; simpl.
    + rewrite Hs; reflexivity.
    + rewrite Ha; exact IH.
Qed.

Lemma find_none_iff {A : Type} (p : A -> bool) l :
  find p l = None <-> Forall (fun x => p x = false) l.
Proof.
  induction l as [|a l IH]; simpl; [split; auto|].
  destruct (p a) eqn:Ha; split; try discriminate.
  - intros H; inversion H; congruence.
  - intros H; constructor; [exact Ha|apply IH; exact H].
  - intros H; inversion H; apply IH; assumption.
Qed.

(** ** Stored frames *)

Lemma frame_of_rows off tr pf :
  frame_of off tr = Some pf ->
  exists r0 rest, selection off tr = r0 :: rest /\
                  pf_columns pf = df_columns (p_data tr) /\
                  pf_rows pf = relative_rows off (r_time r0) (r0 :: rest).
Proof.
  unfold frame_of; destruct (selection off tr) as [|r0 rest]; [discriminate|].
  intros [= <-]; exists r0, rest; auto.
Qed.

Lemma relative_rows_row off t0 rows : map pr_row (relative_rows off t0 rows) = rows.
Proof. unfold relative_rows; rewrite map_map; apply map_id. Qed.

Lemma NoDup_names {V : Type} (tps : list (string * V)) n x y :
  NoDup (map fst tps) -> In (n, x) tps -> In (n, y) tps -> x = y.
Proof.
  induction tps as [|[k v] tps IH]; simpl; [contradiction|].
  intros Hnd; inversion Hnd as [|? ? Hnotin Hnd']; subst.
  intros [[= -> ->]|Hx] [[= <-]|Hy]; auto.
  - exfalso; apply Hnotin; exact (in_map fst _ _ Hy).
  - exfalso; apply Hnotin; exact (in_map fst _ _ Hx).
Qed.

Lemma stored_frame off a t c tps st n tr pf :
  NoDup (map fst tps) -> collect off a t c st_init tps = Ok st ->
  In (n, tr) tps -> In (n, pf) (period_data st) -> frame_of off tr = Some pf.
Proof.
  intros Hnd Hc Hin Hpf.
  destruct (collect_frames _ _ _ _ _ _ _ Hc _ _ Hpf) as [[]|(tr' & Hin' & Hf)].
  rewrite (NoDup_names _ _ _ _ Hnd Hin Hin'); exact Hf.
Qed.

Lemma Forall2_In_l {A B : Type} (R : A -> B -> Prop) l1 l2 a :
  Forall2 R l1 l2 -> In a l1 -> exists b, In b l2 /\ R a b.
Proof.
  induction 1 as [|x y l1 l2 Hxy _ IH]; simpl; [contradiction|].
  intros [->|Ha]; [exists y; auto|].
  destruct (IH Ha) as (b & Hb & HR); exists b; auto.
Qed.

Lemma recorded_ref off t c tps st n tr pf :
  NoDup (map fst tps) -> collect off true (Some t) (Some c) st_init tps = Ok st ->
  In (n, tr) tps -> frame_of off tr = Some pf ->
  In (n, pf) (period_data st) /\
  exists v, dict_get n (reference_points st) = Some v /\ refval c t pf = Ok v.
Proof.
  intros Hnd Hc Hin Hf.
  pose proof (proj2 (collect_keys _ _ _ _ _ _ _ Hc) n tr Hin ltac:(congruence)) as Hk.
  apply in_map_iff in Hk as ([n' pf'] & Hn & Hpf); simpl in Hn; subst n'.
  pose proof (stored_frame _ _ _ _ _ _ _ _ _ Hnd Hc Hin Hpf) as Hf'.
  rewrite Hf in Hf'; injection Hf' as <-.
  split; [exact Hpf|].
  destruct (collect_align _ _ _ _ _ _ Hc (AlignInv_init c t)) as [HF Hnd'].
  destruct (Forall2_In_l _ _ _ _ HF Hpf) as ([n' v] & Hv & Hn' & Hr); simpl in *; subst n'.
  exists v; split; [exact (In_dict_get _ _ _ Hnd' Hv)|exact Hr].
Qed.

(** ** The shift loop and the returned mapping *)

Lemma shift_periods_ok rp pd out lg :
  shift_periods rp pd = Ok (out, lg) ->
  Forall2 (fun x y => fst y = fst x /\
             exists r, dict_get (fst x) rp = Some (Some r) /\ snd y = shift_frame r (snd x))
          pd out.
Proof.
  revert out lg; induction pd as [|[k pf] pd IH]; intros out lg; simpl.
  - intros [= <- _]; constructor.
  - destruct (dict_get k rp) as [[r|]|] eqn:Hk; try discriminate.
    destruct (shift_periods rp pd) as [[out' lg']|e] eqn:Hs; simpl; [|discriminate].
    intros [= <- _]; constructor.
    + simpl; split; [reflexivity|exists r; rewrite Z.sub_0_r; auto].
    + exact (IH _ _ eq_refl).
Qed.

Lemma shift_periods_total rp pd :
  (forall k pf, In (k, pf) pd -> exists r, dict_get k rp = Some (Some r)) ->
  exists res, shift_periods rp pd = Ok res.
Proof.
  induction pd as [|[k pf] pd IH]; simpl; intros H; [eexists; reflexivity|].
  destruct (H k pf (or_introl eq_refl)) as [r ->].
  destruct IH as [res ->]; [intros k' pf' Hin; exact (H k' pf' (or_intror Hin))|].
  simpl; eexists; reflexivity.
Qed.

(** [pf'] is [pf] with every relative-seconds value moved by one constant. *)
Definition Translated (pf pf' : PeriodFrame) : Prop :=
  pf_columns pf' = pf_columns pf /\
  map pr_row (pf_rows pf') = map pr_row (pf_rows pf) /\
  exists r, map pr_seconds (pf_rows pf') = map (fun x => x - r) (map pr_seconds (pf_rows pf)).

Lemma Translated_shift r pf : Translated pf (shift_frame r pf).
Proof.
  unfold Translated, shift_frame; simpl; split; [reflexivity|split].
  - rewrite map_map; reflexivity.
  - exists r; rewrite !map_map; reflexivity.
Qed.

Lemma Translated_refl pf : Translated pf pf.
Proof.
  unfold Translated; split; [reflexivity|split; [reflexivity|]].
  exists 0; rewrite <- (map_id (map pr_seconds (pf_rows pf))) at 1; apply map_ext; intros x; lia.
Qed.

Lemma filter_time_periods_out tps off a t c out lg :
  filter_time_periods tps off a t c = Ok (out, lg) ->
  exists st, collect off a t c st_init tps = Ok st /\
             Forall2 (fun x y => fst y = fst x /\ Translated (snd x) (snd y))
                     (period_data st) out.
Proof.
  unfold filter_time_periods; intros H.
  destruct (collect off a t c st_init tps) as [st|e]; simpl in H; [|discriminate].
  exists st; split; [reflexivity|].
  assert (Hid : Forall2 (fun x y => fst y = fst x /\ Translated (snd x) (snd y))
                        (period_data st) (period_data st)).
  { generalize (period_data st); intros l.
    induction l as [|x l IH]; constructor; [split; [reflexivity|apply Translated_refl]|exact IH]. }
  destruct (a && all_found (reference_points st)).
  - destruct (Nat.eqb _ 0); [discriminate|].
    destruct (shift_periods (reference_points st) (period_data st)) as [[o l]|e] eqn:Hs;
      simpl in H; [|discriminate].
    injection H as <- _; apply shift_periods_ok in Hs; clear Hid.
    induction Hs as [|x y l1 l2 (Hk & r & _ & Hy) _ IH]; constructor; auto.
    split; [exact Hk|rewrite Hy; apply Translated_shift].
  - destruct a; injection H as <- _; exact Hid.
Qed.

Lemma all_found_false rp n :
  dict_get n rp = Some None -> all_found rp = false.
Proof.
  intros H; apply dict_get_In in H.
  destruct (all_found rp) eqn:Ha; [|reflexivity].
  unfold all_found in Ha; rewrite forallb_forall in Ha.
  specialize (Ha _ H); discriminate.
Qed.

Lemma align_lookup c t st k pf :
  AlignInv c t st -> In (k, pf) (period_data st) ->
  exists v, dict_get k (reference_points st) = Some v /\ refval c t pf = Ok v.
Proof.
  intros [HF Hnd] Hin.
  destruct (Forall2_In_l _ _ _ _ HF Hin) as ([k' v] & Hv & Hk & Hr); simpl in *; subst k'.
  exists v; split; [exact (In_dict_get _ _ _ Hnd Hv)|exact Hr].
Qed.

Lemma StronglySorted_app_mid {A : Type} (R : A -> A -> Prop) pre s post x :
  StronglySorted R (pre ++ s :: post) -> In x post -> R s x.
Proof.
  induction pre as [|a pre IH]; simpl; intros H Hx.
  - inversion H as [|? ? _ HF]; exact (proj1 (Forall_forall _ _) HF x Hx).
  - inversion H; auto.
Qed.

Lemma Forall2_In_r {A B : Type} (R : A -> B -> Prop) l1 l2 b :
  Forall2 R l1 l2 -> In b l2 -> exists a, In a l1 /\ R a b.
Proof.
  induction 1 as [|x y l1 l2 Hxy _ IH]; simpl; [contradiction|].
  intros [->|Hb]; [exists x; auto|].
  destruct (IH Hb) as (a & Ha & HR); exists a; auto.
Qed.

(** Each entry of the returned mapping is the stored frame of its own
    period, moved by one constant. *)
Lemma out_entry tps off a t c out lg n tr pf :
  NoDup (map fst tps) -> filter_time_periods tps off a t c = Ok (out, lg) ->
  In (n, tr) tps -> In (n, pf) out ->
  exists pf0, frame_of off tr = Some pf0 /\ Translated pf0 pf.
Proof.
  intros Hnd Hf Hin Hpf.
  destruct (filter_time_periods_out _ _ _ _ _ _ _ Hf) as (st & Hc & HF).
  destruct (Forall2_In_r _ _ _ _ HF Hpf) as ([n' pf0] & Hpf0 & Hk & Htr); simpl in *; subst n'.
  exists pf0; split; [exact (stored_frame _ _ _ _ _ _ _ _ _ Hnd Hc Hin Hpf0)|exact Htr].
Qed.

Lemma out_complete tps off a t c out lg n tr :
  filter_time_periods tps off a t c = Ok (out, lg) ->
  In (n, tr) tps -> frame_of off tr <> None -> exists pf, In (n, pf) out.
Proof.
  intros Hf Hin Hne.
  destruct (filter_time_periods_out _ _ _ _ _ _ _ Hf) as (st & Hc & HF).
  pose proof (proj2 (collect_keys _ _ _ _ _ _ _ Hc) n tr Hin Hne) as Hk.
  apply in_map_iff in Hk as ([n' pf0] & Hn & Hpf0); simpl in Hn; subst n'.
  destruct (Forall2_In_l _ _ _ _ HF Hpf0) as ([n' pf] & Hpf & Hk & _); simpl in Hk; subst n'.
  exists pf; exact Hpf.
Qed.

Lemma out_rows tps off a t c out lg n tr pf :
  NoDup (map fst tps) -> filter_time_periods tps off a t c = Ok (out, lg) ->
  In (n, tr) tps -> In (n, pf) out ->
  map pr_row (pf_rows pf) = selection off tr.
Proof.
  intros Hnd Hf Hin Hpf.
  destruct (out_entry _ _ _ _ _ _ _ _ _ _ Hnd Hf Hin Hpf) as (pf0 & Hf0 & _ & Hrows & _).
  destruct (frame_of_rows _ _ _ Hf0) as (r0 & rest & Hsel & _ & Hr).
  rewrite Hrows, Hr, relative_rows_row, Hsel; reflexivity.
Qed.

Lemma selection_sorted_time off tr :
  Sorted Z.le (map r_time (df_rows (p_data tr))) ->
  StronglySorted (fun a b => r_time a <= r_time b) (selection off tr).
Proof.
  intros Hs; apply StronglySorted_filter, StronglySorted_map_inv.
  apply Sorted_StronglySorted; [exact Z.le_trans|exact Hs].
Qed.

Lemma frame_seconds_sorted off tr pf :
  Sorted Z.le (map r_time (df_rows (p_data tr))) ->
  frame_of off tr = Some pf ->
  StronglySorted Z.le (map pr_seconds (pf_rows pf)).
Proof.
  intros Hs Hf; destruct (frame_of_rows _ _ _ Hf) as (r0 & rest & Hsel & _ & ->).
  unfold relative_rows; rewrite map_map, <- Hsel.
  apply (StronglySorted_map (fun a b => r_time a <= r_time b)); [intros; simpl; lia|].
  apply selection_sorted_time; exact Hs.
Qed.

Lemma Translated_sorted pf pf' :
  Translated pf pf' ->
  StronglySorted Z.le (map pr_seconds (pf_rows pf)) ->
  StronglySorted Z.le (map pr_seconds (pf_rows pf')).
Proof.
  intros (_ & _ & r & ->) Hs; apply (StronglySorted_map Z.le); [intros; lia|exact Hs].
Qed.

Lemma plot_line_sorted lo hi col pf :
  StronglySorted Z.le (map pr_seconds (pf_rows pf)) ->
  StronglySorted Z.le (map fst (plot_line lo hi col pf)).
Proof.
  intros Hs; unfold plot_line; rewrite map_map; simpl.
  apply (StronglySorted_map (fun a b => pr_seconds a <= pr_seconds b)); [auto|].
  apply StronglySorted_filter, StronglySorted_map_inv; exact Hs.
Qed.

Lemma clip_line_sorted mins line :
  StronglySorted Z.le (map fst line) -> StronglySorted Z.le (map fst (clip_line mins line)).
Proof.
  intros Hs; apply (StronglySorted_map (fun a b => fst a <= fst b)); [auto|].
  apply StronglySorted_filter, StronglySorted_map_inv; exact Hs.
Qed.

Lemma Forall2_Forall_l {A B : Type} (P : A -> Prop) (R : A -> B -> Prop) l1 l2 :
  Forall P l1 -> Forall2 R l1 l2 -> Forall2 (fun a b => P a /\ R a b) l1 l2.
Proof.
  intros HP H; induction H as [|a b l1 l2 Hab _ IH]; constructor;
    inversion HP; auto.
Qed.

(** The rows of a stored frame carry increasing labels when the source
    table has pandas' default RangeIndex, and non-decreasing timestamps
    when the source does. *)
Lemma frame_labels_sorted off tr pf :
  map r_index (df_rows (p_data tr)) = seq 0 (List.length (df_rows (p_data tr))) ->
  frame_of off tr = Some pf ->
  StronglySorted (fun a b => (r_index (pr_row a) < r_index (pr_row b))%nat) (pf_rows pf).
Proof.
  intros Hidx Hf; destruct (frame_of_rows _ _ _ Hf) as (r0 & rest & Hsel & _ & ->).
  unfold relative_rows; rewrite <- Hsel.
  apply (StronglySorted_map (fun a b => (r_index a < r_index b)%nat)); [auto|].
  apply StronglySorted_filter, StronglySorted_map_inv; rewrite Hidx; apply StronglySorted_seq.
Qed.

Lemma frame_times_sorted off tr pf :
  Sorted Z.le (map r_time (df_rows (p_data tr))) ->
  frame_of off tr = Some pf ->
  StronglySorted (fun a b => r_time (pr_row a) <= r_time (pr_row b)) (pf_rows pf).
Proof.
  intros Hs Hf; destruct (frame_of_rows _ _ _ Hf) as (r0 & rest & Hsel & _ & ->).
  unfold relative_rows; rewrite <- Hsel.
  apply (StronglySorted_map (fun a b => r_time a <= r_time b)); [auto|].
  apply selection_sorted_time; exact Hs.
Qed.

Lemma Forall_leb_false c t (l : list PRow) :
  Forall (fun x => (pr_value c x <=? t) = false) l <-> Forall (fun x => t < pr_value c x) l.
Proof.
  split; apply Forall_impl; intros x; rewrite Z.leb_gt; auto.
Qed.

End Facts.

Module Claims.
Import Utils Facts Samples.

(** C1: when alignment is requested and some non-empty period's reference
    point is recorded as missing, no period is shifted: the result is the
    step-3 [period_data] unchanged, and the only addition to the printed
    output is the "Skipping additional alignment" warning. *)
Theorem unreached_target_skips_alignment tps off t c st :
  collect off true (Some t) (Some c) st_init tps = Ok st ->
  (exists n, dict_get n (reference_points st) = Some None) ->
  filter_time_periods tps off true (Some t) (Some c) =
  Ok (period_data st, log st ++ [WarnSkip]).
Proof.
  intros Hc [n Hn]; unfold filter_time_periods; rewrite Hc; simpl.
  rewrite (all_found_false _ _ Hn); reflexivity.
Qed.

Lemma unreached_target_skips_alignment_witness :
  exists st, collect 120 true (Some 44) (Some "bottom"%string) st_init batch_AB = Ok st /\
             (exists n, dict_get n (reference_points st) = Some None) /\
             filter_time_periods batch_AB 120 true (Some 44) (Some "bottom"%string) =
             Ok (period_data st, log st ++ [WarnSkip]).
Proof.
  destruct (collect 120 true (Some 44) (Some "bottom"%string) st_init batch_AB)
    as [st|e] eqn:Hc; [|vm_compute in Hc; discriminate].
  assert (Hn : exists n, dict_get n (reference_points st) = Some None).
  { exists "B"%string; vm_compute in Hc; injection Hc as <-; reflexivity. }
  exists st; split; [reflexivity|split; [exact Hn|]].
  exact (unreached_target_skips_alignment _ _ _ _ _ Hc Hn).
Defined.

(** C5: clipping a line to [-60, mins*60] only selects points: every kept
    point is an input point, unchanged, and a narrower clip equals the
    narrower clip of the wider clip. *)
Theorem clip_line_nested (m1 m2 : Z) (line : list (Z * Z)) :
  m1 <= m2 ->
  clip_line m1 line = clip_line m1 (clip_line m2 line) /\
  (forall xy, In xy (clip_line m1 line) <-> In xy line /\ -60 <= fst xy <= m1 * 60).
Proof.
  intros Hm; split.
  - unfold clip_line; induction line as [|[x y] line IH]; simpl; [reflexivity|].
    destruct (Z.leb_spec (-60) x), (Z.leb_spec x (m1 * 60)), (Z.leb_spec x (m2 * 60));
      simpl; rewrite ?IH; try reflexivity; try lia.
    all: destruct (Z.leb_spec (-60) x); try lia; destruct (Z.leb_spec x (m1 * 60)); try lia;
      simpl; rewrite <- ?IH; reflexivity.
  - intros xy; unfold clip_line; rewrite filter_In, andb_true_iff, Z.leb_le, Z.leb_le.
    tauto.
Qed.

Lemma clip_line_nested_witness :
  10 <= 60 /\
  clip_line 10 (plot_line (-120) 1600 "bottom" (shift_frame 50
     {| pf_columns := ["bottom"%string];
        pf_rows := relative_rows 120 880 (selection 120 period_A) |})) =
  clip_line 10 (clip_line 60 (plot_line (-120) 1600 "bottom" (shift_frame 50
     {| pf_columns := ["bottom"%string];
        pf_rows := relative_rows 120 880 (selection 120 period_A) |}))).
Proof.
  split; [lia|].
  exact (proj1 (clip_line_nested 10 60 _ ltac:(lia))).
Defined.

(** C8: two runs on identical periods and identical alignment parameters
    return identical results (mapping and printed messages); the model of
    the function reads nothing besides its arguments. *)
Theorem filter_time_periods_deterministic tps1 tps2 off1 off2 a1 a2 t1 t2 c1 c2 :
  tps1 = tps2 -> off1 = off2 -> a1 = a2 -> t1 = t2 -> c1 = c2 ->
  filter_time_periods tps1 off1 a1 t1 c1 = filter_time_periods tps2 off2 a2 t2 c2.
Proof. intros -> -> -> -> ->; reflexivity. Qed.

Lemma filter_time_periods_deterministic_witness :
  filter_time_periods batch_AB 120 true (Some 44) (Some "bottom"%string) =
  filter_time_periods batch_AB 120 true (Some 44) (Some "bottom"%string).
Proof.
  exact (filter_time_periods_deterministic _ _ _ _ _ _ _ _ _ _
           eq_refl eq_refl eq_refl eq_refl eq_refl).
Defined.

(** C9 (as stated, refuted): the period "BORO" has a non-empty selection
    and its table has no column "top"; the error raised is
    [KeyError('top')], whose message does not name the period. *)
Lemma missing_column_error_names_period_counterexample :
  filter_time_periods batch_BORO 120 true (Some 44) (Some "top"%string) =
    Err (KeyError "top") /\
  mentions (KeyError "top") "BORO" = false /\
  mentions (KeyError "top") "top" = true.
Proof. vm_compute; repeat split. Qed.

(** C9 (amended): with alignment requested, if a period with a non-empty
    selection lacks the reference column (other than the 'seconds' column
    the code writes itself), [filter_time_periods] fails with
    [KeyError(col)], which carries the column name only. *)
Theorem missing_column_keyerror tps off t c n tr :
  c <> "seconds"%string ->
  In (n, tr) tps -> selection off tr <> [] -> ~ In c (df_columns (p_data tr)) ->
  filter_time_periods tps off true (Some t) (Some c) = Err (KeyError c).
Proof.
  intros Hs Hin Hsel Hcol.
  destruct (frame_of off tr) as [pf|] eqn:Hf;
    [|unfold frame_of in Hf; destruct (selection off tr); [contradiction|discriminate]].
  assert (Hc : pf_has_column pf c = false).
  { destruct (frame_of_rows _ _ _ Hf) as (r0 & rest & _ & Hcols & _).
    unfold pf_has_column; rewrite Hcols.
    destruct (String.eqb_spec c "seconds") as [E|_]; [contradiction|simpl].
    destruct (existsb (String.eqb c) (df_columns (p_data tr))) eqn:He; [|reflexivity].
    apply existsb_exists in He as (c' & Hc' & E); apply String.eqb_eq in E; subst c'.
    contradiction. }
  unfold filter_time_periods.
  rewrite (collect_missing _ _ _ st_init _ _ _ _ Hin Hf Hc); reflexivity.
Qed.

Lemma missing_column_keyerror_witness :
  "top"%string <> "seconds"%string /\ In ("BORO"%string, period_A) batch_BORO /\
  selection 120 period_A <> [] /\ ~ In "top"%string (df_columns (p_data period_A)) /\
  filter_time_periods batch_BORO 120 true (Some 44) (Some "top"%string) = Err (KeyError "top").
Proof.
  assert (H1 : "top"%string <> "seconds"%string) by discriminate.
  assert (H2 : In ("BORO"%string, period_A) batch_BORO) by (left; reflexivity).
  assert (H3 : selection 120 period_A <> []) by (vm_compute; discriminate).
  assert (H4 : ~ In "top"%string (df_columns (p_data period_A)))
    by (simpl; intros [H|[]]; discriminate).
  split; [exact H1|split; [exact H2|split; [exact H3|split; [exact H4|]]]].
  exact (missing_column_keyerror _ _ _ _ _ _ H1 H2 H3 H4).
Defined.

(** C10: with alignment requested but no reference point ever recorded
    (no target, no reference column, or every selection empty), the
    average [sum(...) / len(...)] divides by zero. *)
Theorem no_reference_points_zero_division tps off t c :
  t = None \/ c = None \/ Forall (fun p => selection off (snd p) = []) tps ->
  filter_time_periods tps off true t c = Err ZeroDivisionError.
Proof.
  intros H.
  assert (H' : true = false \/ t = None \/ c = None \/
               Forall (fun p => frame_of off (snd p) = None) tps).
  { destruct H as [H|[H|H]]; auto. right; right; right.
    eapply Forall_impl; [|exact H]; intros [n tr]; simpl; unfold frame_of; intros ->;
      reflexivity. }
  destruct (collect_norefs off true t c tps H' st_init) as (st & Hc & Hr).
  unfold filter_time_periods; rewrite Hc; simpl; rewrite Hr; reflexivity.
Qed.

Lemma no_reference_points_zero_division_witness :
  filter_time_periods batch_A 120 true None (Some "bottom"%string) = Err ZeroDivisionError.
Proof.
  exact (no_reference_points_zero_division batch_A 120 None (Some "bottom"%string)
           (or_introl eq_refl)).
Defined.

(** C4: before any shift, the stored frame of a period with a non-empty
    selection gives each retained sample
    [(timestamp - first_retained_timestamp) - preroll] seconds; the first
    one gets [-preroll]. *)
Theorem relative_seconds_before_alignment tps off a t c st n tr pf :
  NoDup (map fst tps) -> collect off a t c st_init tps = Ok st ->
  In (n, tr) tps -> In (n, pf) (period_data st) ->
  exists r0 rest,
    selection off tr = r0 :: rest /\
    map pr_row (pf_rows pf) = r0 :: rest /\
    Forall (fun s => pr_seconds s = (r_time (pr_row s) - r_time r0) - off) (pf_rows pf) /\
    hd_error (map pr_seconds (pf_rows pf)) = Some (- off).
Proof.
  intros Hnd Hc Hin Hpf.
  pose proof (stored_frame _ _ _ _ _ _ _ _ _ Hnd Hc Hin Hpf) as Hf.
  destruct (frame_of_rows _ _ _ Hf) as (r0 & rest & Hsel & _ & Hr).
  exists r0, rest; rewrite Hr; split; [exact Hsel|split; [apply relative_rows_row|split]].
  - unfold relative_rows; apply Forall_map, Forall_forall; intros x _; reflexivity.
  - simpl; f_equal; lia.
Qed.

Lemma relative_seconds_before_alignment_witness :
  exists st pf,
    NoDup (map fst batch_A) /\ collect 120 false None None st_init batch_A = Ok st /\
    In ("A"%string, period_A) batch_A /\ In ("A"%string, pf) (period_data st) /\
    exists r0 rest,
      selection 120 period_A = r0 :: rest /\
      map pr_row (pf_rows pf) = r0 :: rest /\
      Forall (fun s => pr_seconds s = (r_time (pr_row s) - r_time r0) - 120) (pf_rows pf) /\
      hd_error (map pr_seconds (pf_rows pf)) = Some (- 120).
Proof.
  assert (Hnd : NoDup (map fst batch_A)) by (repeat constructor; simpl; tauto).
  assert (Hin : In ("A"%string, period_A) batch_A) by (left; reflexivity).
  destruct (collect 120 false None None st_init batch_A) as [st|e] eqn:Hc;
    [|vm_compute in Hc; discriminate].
  destruct (period_data st) as [|[n pf] l] eqn:Hpd;
    [vm_compute in Hc; injection Hc as <-; discriminate|].
  assert (Hn : n = "A"%string) by (vm_compute in Hc; injection Hc as <-; simpl in Hpd; congruence).
  subst n.
  assert (Hpf : In ("A"%string, pf) (period_data st)) by (rewrite Hpd; left; reflexivity).
  exists st, pf; split; [exact Hnd|split; [reflexivity|split; [exact Hin|split; [exact Hpf|]]]].
  exact (relative_seconds_before_alignment _ _ _ _ _ _ _ _ _ Hnd Hc Hin Hpf).
Defined.

(** C7: the samples kept for a period are exactly, and in order, the source
    samples with [start - preroll <= t <= end]; every such sample is in the
    returned mapping under the period's name. *)
Theorem selection_is_closed_window tps off a t c out lg n tr :
  NoDup (map fst tps) -> filter_time_periods tps off a t c = Ok (out, lg) ->
  In (n, tr) tps ->
  (forall pf, In (n, pf) out ->
     map pr_row (pf_rows pf) =
     filter (fun r => (p_start tr - off <=? r_time r) && (r_time r <=? p_end tr))
            (df_rows (p_data tr))) /\
  (forall r, In r (df_rows (p_data tr)) -> p_start tr - off <= r_time r <= p_end tr ->
     exists pf, In (n, pf) out /\ In r (map pr_row (pf_rows pf))).
Proof.
  intros Hnd Hf Hin; split.
  - intros pf Hpf; exact (out_rows _ _ _ _ _ _ _ _ _ _ Hnd Hf Hin Hpf).
  - intros r Hr Hw.
    assert (Hs : In r (selection off tr)).
    { unfold selection, in_window; apply filter_In; split; [exact Hr|].
      apply andb_true_iff; split; apply Z.leb_le; lia. }
    assert (Hne : frame_of off tr <> None).
    { unfold frame_of; destruct (selection off tr); [contradiction|discriminate]. }
    destruct (out_complete _ _ _ _ _ _ _ _ _ Hf Hin Hne) as [pf Hpf].
    exists pf; split; [exact Hpf|].
    rewrite (out_rows _ _ _ _ _ _ _ _ _ _ Hnd Hf Hin Hpf); exact Hs.
Qed.

Lemma selection_is_closed_window_witness :
  exists out lg,
    NoDup (map fst batch_AB) /\
    filter_time_periods batch_AB 120 true (Some 44) (Some "bottom"%string) = Ok (out, lg) /\
    In ("A"%string, period_A) batch_AB /\
    (forall r, In r (df_rows (p_data period_A)) -> 880 <= r_time r <= 1600 ->
       exists pf, In ("A"%string, pf) out /\ In r (map pr_row (pf_rows pf))).
Proof.
  assert (Hnd : NoDup (map fst batch_AB))
    by (repeat constructor; simpl; intuition discriminate).
  assert (Hin : In ("A"%string, period_A) batch_AB) by (left; reflexivity).
  destruct (filter_time_periods batch_AB 120 true (Some 44) (Some "bottom"%string))
    as [[out lg]|e] eqn:Hf; [|vm_compute in Hf; discriminate].
  exists out, lg; split; [exact Hnd|split; [reflexivity|split; [exact Hin|]]].
  exact (proj2 (selection_is_closed_window _ _ _ _ _ _ _ _ _ Hnd Hf Hin)).
Defined.

(** C6: for a period whose source is non-decreasing in time, the returned
    frame keeps the selected source rows in their input order and its
    relative seconds are non-decreasing; the plotted window and every clip
    of it are non-decreasing too. *)
Theorem output_order_preserved tps off a t c out lg n tr pf :
  NoDup (map fst tps) -> filter_time_periods tps off a t c = Ok (out, lg) ->
  In (n, tr) tps -> Sorted Z.le (map r_time (df_rows (p_data tr))) ->
  In (n, pf) out ->
  map pr_row (pf_rows pf) = selection off tr /\
  Sorted Z.le (map pr_seconds (pf_rows pf)) /\
  (forall lo hi col mins,
     Sorted Z.le (map fst (plot_line lo hi col pf)) /\
     Sorted Z.le (map fst (clip_line mins (plot_line lo hi col pf)))).
Proof.
  intros Hnd Hf Hin Hs Hpf.
  destruct (out_entry _ _ _ _ _ _ _ _ _ _ Hnd Hf Hin Hpf) as (pf0 & Hf0 & Htr).
  assert (Hss : StronglySorted Z.le (map pr_seconds (pf_rows pf)))
    by exact (Translated_sorted _ _ Htr (frame_seconds_sorted _ _ _ Hs Hf0)).
  split; [exact (out_rows _ _ _ _ _ _ _ _ _ _ Hnd Hf Hin Hpf)|].
  split; [apply StronglySorted_Sorted; exact Hss|].
  intros lo hi col mins; split; apply StronglySorted_Sorted;
    [|apply clip_line_sorted]; apply plot_line_sorted; exact Hss.
Qed.

Lemma output_order_preserved_witness :
  exists out lg pf,
    NoDup (map fst batch_A) /\
    filter_time_periods batch_A 120 true (Some 44) (Some "bottom"%string) = Ok (out, lg) /\
    In ("A"%string, period_A) batch_A /\
    Sorted Z.le (map r_time (df_rows (p_data period_A))) /\
    In ("A"%string, pf) out /\
    Sorted Z.le (map pr_seconds (pf_rows pf)).
Proof.
  assert (Hnd : NoDup (map fst batch_A)) by (repeat constructor; simpl; tauto).
  assert (Hin : In ("A"%string, period_A) batch_A) by (left; reflexivity).
  assert (Hs : Sorted Z.le (map r_time (df_rows (p_data period_A)))).
  { vm_compute; repeat constructor; discriminate. }
  destruct (filter_time_periods batch_A 120 true (Some 44) (Some "bottom"%string))
    as [[out lg]|e] eqn:Hf; [|vm_compute in Hf; discriminate].
  destruct out as [|[n pf] l] eqn:Hout; [vm_compute in Hf; discriminate|].
  assert (Hn : n = "A"%string) by (vm_compute in Hf; congruence); subst n.
  assert (Hpf : In ("A"%string, pf) (("A"%string, pf) :: l)) by (left; reflexivity).
  exists (("A"%string, pf) :: l), lg, pf.
  split; [exact Hnd|split; [reflexivity|split; [exact Hin|split; [exact Hs|split; [exact Hpf|]]]]].
  exact (proj1 (proj2 (output_order_preserved _ _ _ _ _ _ _ _ _ _ Hnd Hf Hin Hs Hpf))).
Defined.

(** C3: for a stored period (non-empty selection) whose table has the
    default RangeIndex and non-decreasing timestamps, the recorded
    reference point is the relative seconds of the first retained sample
    whose reference reading is at most the target (no retained sample
    before it is at or below the target, and none at or below it has an
    earlier timestamp); it is recorded as missing exactly when every
    retained reading is above the target. *)
Theorem reference_point_first_at_or_below tps off t c st n tr pf :
  NoDup (map fst tps) ->
  collect off true (Some t) (Some c) st_init tps = Ok st ->
  In (n, tr) tps ->
  map r_index (df_rows (p_data tr)) = seq 0 (List.length (df_rows (p_data tr))) ->
  Sorted Z.le (map r_time (df_rows (p_data tr))) ->
  In (n, pf) (period_data st) ->
  (forall r, dict_get n (reference_points st) = Some (Some r) <->
     exists pre s post,
       pf_rows pf = pre ++ s :: post /\
       Forall (fun x => t < pr_value c x) pre /\
       pr_value c s <= t /\ pr_seconds s = r /\
       (forall x, In x (pf_rows pf) -> pr_value c x <= t ->
                  r_time (pr_row s) <= r_time (pr_row x))) /\
  (dict_get n (reference_points st) = Some None <->
     Forall (fun x => t < pr_value c x) (pf_rows pf)).
Proof.
  intros Hnd Hc Hin Hidx Hs Hpf.
  pose proof (stored_frame _ _ _ _ _ _ _ _ _ Hnd Hc Hin Hpf) as Hf.
  destruct (recorded_ref _ _ _ _ _ _ _ _ Hnd Hc Hin Hf) as (_ & v & Hget & Hrv).
  destruct (pf_has_column pf c) eqn:Hcol;
    [|rewrite refval_missing in Hrv by exact Hcol; discriminate].
  rewrite (refval_sorted c t pf (frame_labels_sorted _ _ _ Hidx Hf) Hcol) in Hrv.
  injection Hrv as <-; rewrite Hget.
  pose proof (frame_times_sorted _ _ _ Hs Hf) as Ht.
  split.
  - intros r; split.
    + destruct (find _ (pf_rows pf)) as [s|] eqn:Hfind; simpl; [|discriminate].
      intros [= <-].
      apply find_first in Hfind as (pre & post & Hrows & Hpre & Hsle).
      apply Z.leb_le in Hsle; apply Forall_leb_false in Hpre.
      exists pre, s, post; repeat split; auto.
      intros x Hx Hxle; rewrite Hrows in Hx, Ht; apply in_app_or in Hx as [Hx|[<-|Hx]].
      * pose proof (proj1 (Forall_forall _ _) Hpre x Hx) as H; cbv beta in H; lia.
      * lia.
      * exact (StronglySorted_app_mid _ _ _ _ _ Ht Hx).
    + intros (pre & s & post & Hrows & Hpre & Hsle & Hsec & _).
      assert (Hfind : find (fun x => pr_value c x <=? t) (pf_rows pf) = Some s).
      { apply find_first; exists pre, post; split; [exact Hrows|split].
        - apply Forall_leb_false; exact Hpre.
        - apply Z.leb_le; exact Hsle. }
      rewrite Hfind; simpl; rewrite Hsec; reflexivity.
  - split.
    + destruct (find _ (pf_rows pf)) as [s|] eqn:Hfind; simpl; [discriminate|].
      intros _; apply Forall_leb_false, find_none_iff; exact Hfind.
    + intros HF; apply Forall_leb_false, find_none_iff in HF; rewrite HF; reflexivity.
Qed.

Lemma reference_point_first_at_or_below_witness :
  exists st pf,
    NoDup (map fst batch_A) /\
    collect 120 true (Some 44) (Some "bottom"%string) st_init batch_A = Ok st /\
    In ("A"%string, period_A) batch_A /\
    map r_index (df_rows (p_data period_A)) =
      seq 0 (List.length (df_rows (p_data period_A))) /\
    Sorted Z.le (map r_time (df_rows (p_data period_A))) /\
    In ("A"%string, pf) (period_data st) /\
    (dict_get "A" (reference_points st) = Some None <->
       Forall (fun x => 44 < pr_value "bottom" x) (pf_rows pf)).
Proof.
  assert (Hnd : NoDup (map fst batch_A)) by (repeat constructor; simpl; tauto).
  assert (Hin : In ("A"%string, period_A) batch_A) by (left; reflexivity).
  assert (Hidx : map r_index (df_rows (p_data period_A)) =
                 seq 0 (List.length (df_rows (p_data period_A)))) by (vm_compute; reflexivity).
  assert (Hs : Sorted Z.le (map r_time (df_rows (p_data period_A)))).
  { vm_compute; repeat constructor; discriminate. }
  destruct (collect 120 true (Some 44) (Some "bottom"%string) st_init batch_A)
    as [st|e] eqn:Hc; [|vm_compute in Hc; discriminate].
  destruct (period_data st) as [|[n pf] l] eqn:Hpd;
    [vm_compute in Hc; injection Hc as <-; discriminate|].
  assert (Hn : n = "A"%string) by (vm_compute in Hc; injection Hc as <-; simpl in Hpd; congruence).
  subst n.
  assert (Hpf : In ("A"%string, pf) (period_data st)) by (rewrite Hpd; left; reflexivity).
  exists st, pf.
  split; [exact Hnd|split; [reflexivity|split; [exact Hin|split; [exact Hidx|]]]].
  split; [exact Hs|split; [exact Hpf|]].
  exact (proj2 (reference_point_first_at_or_below _ _ _ _ _ _ _ _ Hnd Hc Hin Hidx Hs Hpf)).
Defined.

(** C2: when every non-empty period has a recorded reference point, each
    period's frame is moved by its own reference point (one constant for
    all its rows, [shift_frame]), and the sample that gave the reference
    point ends up at relative time 0. The one exception is a batch with no
    non-empty period at all: there the average of zero reference points
    raises [ZeroDivisionError] (see C10). *)
Theorem aligned_periods_shifted_by_own_reference tps off t c st :
  collect off true (Some t) (Some c) st_init tps = Ok st ->
  (forall n tr, In (n, tr) tps -> selection off tr <> [] ->
     exists r, dict_get n (reference_points st) = Some (Some r)) ->
  (period_data st = [] /\
   filter_time_periods tps off true (Some t) (Some c) = Err ZeroDivisionError) \/
  exists out lg,
    filter_time_periods tps off true (Some t) (Some c) = Ok (out, lg) /\
    Forall2 (fun x y =>
      fst y = fst x /\
      exists r, dict_get (fst x) (reference_points st) = Some (Some r) /\
        snd y = shift_frame r (snd x) /\
        exists s, In s (pf_rows (snd x)) /\ pr_seconds s = r /\
                  In {| pr_row := pr_row s; pr_seconds := 0 |} (pf_rows (snd y)))
      (period_data st) out.
Proof.
  intros Hc Hrec.
  destruct (collect_align _ _ _ _ _ _ Hc (AlignInv_init c t)) as [HF Hnd].
  assert (Hpdref : forall k pf, In (k, pf) (period_data st) ->
                   exists r, dict_get k (reference_points st) = Some (Some r)).
  { intros k pf Hk.
    destruct (collect_frames _ _ _ _ _ _ _ Hc _ _ Hk) as [[]|(tr & Htr & Hf)].
    apply (Hrec k tr Htr); unfold frame_of in Hf; destruct (selection off tr);
      [discriminate|intros; discriminate]. }
  assert (Hall : all_found (reference_points st) = true).
  { unfold all_found; apply forallb_forall; intros [k v] Hkv.
    destruct (Forall2_In_r _ _ _ _ HF Hkv) as ([k' pf] & Hpf & Hk & _); simpl in Hk; subst k'.
    destruct (Hpdref k pf Hpf) as [r Hr].
    rewrite (In_dict_get _ _ _ Hnd Hkv) in Hr; injection Hr as ->; reflexivity. }
  unfold filter_time_periods; rewrite Hc; simpl; rewrite Hall; simpl.
  destruct (Nat.eqb (List.length (reference_points st)) 0) eqn:Hlen.
  - left; split; [|reflexivity].
    apply Nat.eqb_eq, length_zero_iff_nil in Hlen; rewrite Hlen in HF.
    inversion HF; reflexivity.
  - right.
    destruct (shift_periods_total _ _ Hpdref) as [[out lg'] Hs]; rewrite Hs; simpl.
    eexists; eexists; split; [reflexivity|].
    apply shift_periods_ok in Hs.
    assert (HP : Forall (fun x => forall r, dict_get (fst x) (reference_points st) = Some (Some r) ->
                   exists s, In s (pf_rows (snd x)) /\ pr_seconds s = r) (period_data st)).
    { apply Forall_forall; intros [k pf] Hk r Hr; simpl in *.
      destruct (align_lookup _ _ _ _ _ (conj HF Hnd) Hk) as (v & Hv & Hrv).
      rewrite Hr in Hv; injection Hv as <-; exact (refval_some _ _ _ _ Hrv). }
    eapply Forall2_impl; [|exact (Forall2_Forall_l _ _ _ _ HP Hs)].
    intros x y (Hx & Hk & r & Hr & Hy); split; [exact Hk|exists r; split; [exact Hr|]].
    split; [exact Hy|].
    destruct (Hx r Hr) as (s & Hs' & Hsec); exists s; split; [exact Hs'|split; [exact Hsec|]].
    rewrite Hy; unfold shift_frame; simpl; apply in_map_iff; exists s; split; [|exact Hs'].
    rewrite Hsec, Z.sub_diag; reflexivity.
Qed.

Lemma aligned_periods_shifted_by_own_reference_witness :
  exists st,
    collect 120 true (Some 44) (Some "bottom"%string) st_init batch_A = Ok st /\
    (forall n tr, In (n, tr) batch_A -> selection 120 tr <> [] ->
       exists r, dict_get n (reference_points st) = Some (Some r)) /\
    ((period_data st = [] /\
      filter_time_periods batch_A 120 true (Some 44) (Some "bottom"%string) =
        Err ZeroDivisionError) \/
     exists out lg,
       filter_time_periods batch_A 120 true (Some 44) (Some "bottom"%string) = Ok (out, lg) /\
       Forall2 (fun x y =>
         fst y = fst x /\
         exists r, dict_get (fst x) (reference_points st) = Some (Some r) /\
           snd y = shift_frame r (snd x) /\
           exists s, In s (pf_rows (snd x)) /\ pr_seconds s = r /\
                     In {| pr_row := pr_row s; pr_seconds := 0 |} (pf_rows (snd y)))
         (period_data st) out).
Proof.
  destruct (collect 120 true (Some 44) (Some "bottom"%string) st_init batch_A)
    as [st|e] eqn:Hc; [|vm_compute in Hc; discriminate].
  assert (Hrec : forall n tr, In (n, tr) batch_A -> selection 120 tr <> [] ->
                 exists r, dict_get n (reference_points st) = Some (Some r)).
  { intros n tr [H|[]] _; injection H as <- <-.
    exists 50; vm_compute in Hc; injection Hc as <-; reflexivity. }
  exists st; split; [reflexivity|split; [exact Hrec|]].
  exact (aligned_periods_shifted_by_own_reference _ _ _ _ _ Hc Hrec).
Defined.

End Claims.


Module Extras.
Import Utils Scripts Facts Ascii PrimFloat.

(** ** format_time *)

Definition read_uint (s : string) : option N :=
  option_map N.of_uint (DecimalString.NilEmpty.uint_of_string s).

Lemma read_pad02 (n : N) : read_uint (pad02 (dec n)) = Some n.
Proof.
  unfold read_uint, pad02, dec.
  destruct (String.length _ <? 2)%nat; simpl;
    rewrite DecimalString.NilEmpty.usu; simpl; f_equal.
  - rewrite <- DecimalN.Unsigned.of_uint_norm; simpl.
    rewrite DecimalN.Unsigned.of_uint_norm; apply DecimalN.Unsigned.of_to.
  - apply DecimalN.Unsigned.of_to.
Qed.

Lemma pad02_digits (n : N) : DecimalString.NilEmpty.uint_of_string (pad02 (dec n)) <> None.
Proof.
  pose proof (read_pad02 n) as H; unfold read_uint in H.
  destruct (DecimalString.NilEmpty.uint_of_string _); [discriminate|discriminate].
Qed.

Lemma pad02_nonempty (s : string) : pad02 s <> EmptyString.
Proof.
  unfold pad02; destruct (String.length s <? 2)%nat eqn:H; [discriminate|].
  destruct s; [discriminate|discriminate].
Qed.

Lemma uint_of_string_cons_some c s :
  DecimalString.NilEmpty.uint_of_string (String c s) <> None ->
  DecimalString.NilEmpty.uint_of_string s <> None /\ c <> ":"%char /\ c <> "-"%char.
Proof.
  simpl; destruct (DecimalString.NilEmpty.uint_of_string s) as [d|]; [|simpl; tauto].
  intros H; split; [discriminate|].
  destruct (DecimalString.uint_of_char c (Some d)) as [d'|] eqn:Hc; [|tauto].
  apply DecimalString.uint_of_char_spec in Hc.
  split; intros ->; intuition discriminate.
Qed.

Lemma split_colon (a b x y : string) :
  DecimalString.NilEmpty.uint_of_string a <> None ->
  DecimalString.NilEmpty.uint_of_string b <> None ->
  (a ++ ":" ++ x = b ++ ":" ++ y)%string -> a = b /\ x = y.
Proof.
  revert b; induction a as [|c a IH]; intros [|c' b] Ha Hb; simpl.
  - intros [= ->]; auto.
  - intros [= Hc _]; exfalso; apply uint_of_string_cons_some in Hb; intuition.
  - intros [= Hc _]; exfalso; apply uint_of_string_cons_some in Ha; intuition.
  - intros [= <- H].
    apply uint_of_string_cons_some in Ha as [Ha _]; apply uint_of_string_cons_some in Hb as [Hb _].
    destruct (IH b Ha Hb H) as [-> ->]; auto.
Qed.

Lemma format_fields (m s m' s' : N) :
  (pad02 (dec m) ++ ":" ++ pad02 (dec s) = pad02 (dec m') ++ ":" ++ pad02 (dec s'))%string ->
  m = m' /\ s = s'.
Proof.
  intros H; apply split_colon in H as [Hm Hs]; try apply pad02_digits.
  pose proof (read_pad02 m) as Rm; pose proof (read_pad02 s) as Rs.
  rewrite Hm, read_pad02 in Rm; rewrite Hs, read_pad02 in Rs; split; congruence.
Qed.

(** X: [format_time] never gives two whole-second tick positions the same
    label: equal labels mean equal positions. *)
Theorem format_time_injective (a b : Z) :
  format_time a = format_time b -> a = b.
Proof.
  unfold format_time.
  assert (Hdm : forall x, Z.abs x = 60 * (Z.abs x / 60) + Z.abs x mod 60)
    by (intros x; apply Z.div_mod; lia).
  assert (Hnn : forall x, 0 <= Z.abs x / 60 /\ 0 <= Z.abs x mod 60)
    by (intros x; split; [apply Z.div_pos|apply Z.mod_pos_bound]; lia).
  assert (Hf : forall x y,
            (pad02 (dec (Z.to_N (Z.abs x / 60))) ++ ":" ++ pad02 (dec (Z.to_N (Z.abs x mod 60))) =
             pad02 (dec (Z.to_N (Z.abs y / 60))) ++ ":" ++ pad02 (dec (Z.to_N (Z.abs y mod 60))))%string ->
            Z.abs x = Z.abs y).
  { intros x y H; apply format_fields in H as [Hm Hs].
    destruct (Hnn x), (Hnn y).
    rewrite (Hdm x), (Hdm y).
    apply (f_equal Z.of_N) in Hm, Hs; rewrite !Z2N.id in Hm, Hs by assumption; lia. }
  assert (Hminus : forall x s t,
            (pad02 (dec (Z.to_N (Z.abs x / 60))) ++ s)%string <> String "-" t).
  { intros x s t H.
    pose proof (pad02_digits (Z.to_N (Z.abs x / 60))) as Hd.
    pose proof (pad02_nonempty (dec (Z.to_N (Z.abs x / 60)))) as Hne.
    destruct (pad02 (dec (Z.to_N (Z.abs x / 60)))) as [|c p]; [contradiction|].
    simpl in H; injection H as Hc _.
    apply uint_of_string_cons_some in Hd as (_ & _ & Hd); contradiction. }
  destruct (Z.ltb_spec a 0) as [Ha|Ha], (Z.ltb_spec b 0) as [Hb|Hb]; intros H.
  - simpl in H; injection H as H1; apply Hf in H1; lia.
  - exfalso; symmetry in H; exact (Hminus b _ _ H).
  - exfalso; exact (Hminus a _ _ H).
  - apply Hf in H; lia.
Qed.

Lemma format_time_injective_witness :
  format_time 90 = format_time 90 /\ 90 = 90.
Proof. split; [reflexivity|apply (format_time_injective 90 90); reflexivity]. Defined.

(** ** The inline loops of the scripts *)

Lemma process_period_cooling_eq off T col st n tr :
  process_period_cooling off T col st n tr = process_period off true (Some T) (Some col) st n tr.
Proof. unfold process_period_cooling, process_period; destruct (selection off tr); reflexivity. Qed.

Lemma collect_cooling_eq off T col tps :
  forall st, collect_cooling off T col st tps = collect off true (Some T) (Some col) st tps.
Proof.
  induction tps as [|[n tr] tps IH]; intros st; simpl; [reflexivity|].
  rewrite process_period_cooling_eq.
  destruct (process_period off true (Some T) (Some col) st n tr); simpl; auto.
Qed.

Lemma collect_no_align off t c tps :
  forall st, collect off false t c st tps =
    Ok {| period_data := fst (fold_left (extract_step off) tps (period_data st, log st));
          reference_points := reference_points st;
          log := snd (fold_left (extract_step off) tps (period_data st, log st)) |}.
Proof.
  induction tps as [|[n tr] tps IH]; intros st; simpl.
  - destruct st; reflexivity.
  - unfold process_period; destruct (selection off tr) as [|r0 rest]; simpl; rewrite IH; reflexivity.
Qed.

Lemma filter_time_periods_no_align tps off t c :
  filter_time_periods tps off false t c = Ok (extract_periods tps off).
Proof.
  unfold filter_time_periods, extract_periods; rewrite collect_no_align; simpl.
  destruct (fold_left _ _ _); reflexivity.
Qed.

Lemma dict_set_absent {V : Type} (k : string) (v : V) d :
  ~ In k (map fst d) -> dict_set k v d = (d ++ [(k, v)])%list.
Proof.
  induction d as [|[k' v'] d IH]; simpl; [reflexivity|].
  intros H; destruct (String.eqb_spec k k') as [->|_]; [exfalso; auto|].
  rewrite IH; auto.
Qed.

(** The frames and the messages of the extraction loop. *)
Definition extracted_frames (start_offset : Z) (time_periods : list (string * Period))
    : list (string * PeriodFrame) :=
  flat_map (fun p => match frame_of start_offset (snd p) with
                     | Some pf => [(fst p, pf)]
                     | None => []
                     end) time_periods.

Definition extraction_messages (start_offset : Z) (time_periods : list (string * Period))
    : list msg :=
  map (fun p => match selection start_offset (snd p) with
                | [] => NoData (fst p)
                | sel => Extracted (fst p) (List.length sel)
                end) time_periods.

Lemma extract_fold off tps :
  forall pd lg, NoDup (map fst tps) ->
  (forall k, In k (map fst pd) -> ~ In k (map fst tps)) ->
  fold_left (extract_step off) tps (pd, lg) =
  ((pd ++ extracted_frames off tps)%list, (lg ++ extraction_messages off tps)%list).
Proof.
  induction tps as [|[n tr] tps IH]; intros pd lg Hnd Hk; simpl.
  - rewrite !app_nil_r; reflexivity.
  - inversion Hnd as [|? ? Hn Hnd']; subst.
    unfold frame_of; destruct (selection off tr) as [|r0 rest] eqn:Hs; simpl.
    + rewrite IH by (auto; intros k Hin Hin'; apply (Hk k Hin); right; exact Hin').
      rewrite <- app_assoc; reflexivity.
    + rewrite dict_set_absent by (intros Hin; apply (Hk n Hin); left; reflexivity).
      rewrite IH; [rewrite <- !app_assoc; reflexivity|exact Hnd'|].
      intros k Hin Hin'; rewrite map_app, in_app_iff in Hin; simpl in Hin.
      destruct Hin as [Hin|[<-|[]]]; [apply (Hk k Hin); right; exact Hin'|contradiction].
Qed.

Lemma extract_periods_closed tps off :
  NoDup (map fst tps) ->
  extract_periods tps off = (extracted_frames off tps, extraction_messages off tps).
Proof. intros Hnd; unfold extract_periods; rewrite extract_fold; auto. Qed.

(** X: the extraction-and-alignment loop written out in
    figure_indoorheating.py returns and prints the same as utils'
    [filter_time_periods] called with alignment to [TARGET_TEMP] on
    [apparatus_bottom_col]. *)
Theorem cooling_alignment_is_filter_time_periods tps off T col :
  align_cooling tps off T col = filter_time_periods tps off true (Some T) (Some col).
Proof.
  unfold align_cooling, filter_time_periods; rewrite collect_cooling_eq.
  destruct (collect off true (Some T) (Some col) st_init tps); reflexivity.
Qed.

(** X: without alignment [filter_time_periods] never raises, whatever the
    other arguments, and returns and prints the same as the extraction
    loop written out in figure_indoorheating_65c.py. *)
Theorem filter_time_periods_without_alignment tps off t c :
  filter_time_periods tps off false t c = Ok (extract_periods tps off).
Proof. apply filter_time_periods_no_align. Qed.

(** X: for distinct period names the extraction loop keeps exactly the
    periods whose window holds a sample, in input order, each with its
    frame, and prints one line per period, in input order. *)
Theorem extract_periods_result tps off :
  NoDup (map fst tps) ->
  extract_periods tps off =
  (flat_map (fun p => match frame_of off (snd p) with
                      | Some pf => [(fst p, pf)]
                      | None => []
                      end) tps,
   map (fun p => match selection off (snd p) with
                 | [] => NoData (fst p)
                 | sel => Extracted (fst p) (List.length sel)
                 end) tps).
Proof. apply extract_periods_closed. Qed.

Lemma extract_periods_result_witness :
  NoDup (map fst Samples.batch_AB) /\
  extract_periods Samples.batch_AB 120 =
  (flat_map (fun p => match frame_of 120 (snd p) with
                      | Some pf => [(fst p, pf)]
                      | None => []
                      end) Samples.batch_AB,
   map (fun p => match selection 120 (snd p) with
                 | [] => NoData (fst p)
                 | sel => Extracted (fst p) (List.length sel)
                 end) Samples.batch_AB).
Proof.
  assert (H : NoDup (map fst Samples.batch_AB)).
  { simpl; constructor; [simpl; intros [H|[]]; discriminate|constructor; [intros []|constructor]]. }
  split; [exact H|exact (extract_periods_result _ _ H)].
Defined.

(** ** The combined figure *)

Lemma dict_get_set {V : Type} (k k' : string) (v : V) d :
  dict_get k (dict_set k' v d) = if String.eqb k k' then Some v else dict_get k d.
Proof.
  induction d as [|[k0 v0] d IH]; simpl.
  - reflexivity.
  - destruct (String.eqb_spec k' k0) as [->|Hne]; simpl.
    + destruct (String.eqb k k0); reflexivity.
    + rewrite IH; destruct (String.eqb_spec k k') as [->|_]; [|reflexivity].
      destruct (String.eqb_spec k' k0); [contradiction|reflexivity].
Qed.

Lemma dict_get_none {V : Type} (k : string) (d : list (string * V)) :
  ~ In k (map fst d) -> dict_get k d = None.
Proof.
  induction d as [|[k' v'] d IH]; simpl; [reflexivity|].
  intros H; destruct (String.eqb_spec k k') as [->|_]; [exfalso; auto|auto].
Qed.

Lemma dict_merge_get {V : Type} (a b : list (string * V)) k :
  NoDup (map fst b) ->
  dict_get k (dict_merge a b) =
  match dict_get k b with Some v => Some v | None => dict_get k a end.
Proof.
  unfold dict_merge; revert a; induction b as [|[k' v'] b IH]; intros a Hnd; simpl; [reflexivity|].
  inversion Hnd as [|? ? Hn Hnd']; subst.
  rewrite (IH _ Hnd'), dict_get_set.
  destruct (String.eqb_spec k k') as [->|_]; [|reflexivity].
  rewrite (dict_get_none _ _ Hn); reflexivity.
Qed.

Lemma extracted_frames_keys off tps k :
  In k (map fst (extracted_frames off tps)) -> In k (map fst tps).
Proof.
  induction tps as [|[n tr] tps IH]; simpl; [auto|].
  destruct (frame_of off tr); simpl; [intros [->|H]; auto|auto].
Qed.

Lemma extracted_frames_NoDup off tps :
  NoDup (map fst tps) -> NoDup (map fst (extracted_frames off tps)).
Proof.
  induction tps as [|[n tr] tps IH]; simpl; intros Hnd; [constructor|].
  inversion Hnd as [|? ? Hn Hnd']; subst.
  destruct (frame_of off tr); simpl; [constructor|]; auto.
  intros Hin; apply Hn; exact (extracted_frames_keys _ _ _ Hin).
Qed.

Lemma extracted_frames_In off tps n tr pf :
  In (n, tr) tps -> frame_of off tr = Some pf -> In (n, pf) (extracted_frames off tps).
Proof.
  induction tps as [|[n' tr'] tps IH]; simpl; [contradiction|].
  intros [[= -> ->]|Hin] Hf; [rewrite Hf; left; reflexivity|].
  apply in_or_app; right; auto.
Qed.

Lemma extracted_frames_absent off tps n :
  (forall tr, In (n, tr) tps -> frame_of off tr = None) ->
  ~ In n (map fst (extracted_frames off tps)).
Proof.
  induction tps as [|[n' tr'] tps IH]; simpl; [auto|].
  intros H; destruct (frame_of off tr') eqn:Hf; simpl.
  - intros [->|Hin].
    + rewrite (H tr' (or_introl eq_refl)) in Hf; discriminate.
    + apply IH in Hin; auto.
  - apply IH; auto.
Qed.

(** X: in figure_indoorheating_combined.py a 65°C period whose window holds
    a sample is found in the merged mapping under its name with its
    unaligned frame, even when an aligned period has the same name; every
    other name maps to what the aligned batch returned. *)
Theorem combined_period_data_lookup orig t65 off T col pd lg :
  NoDup (map fst t65) ->
  combined_period_data orig t65 off T col = Ok (pd, lg) ->
  exists out lg1,
    filter_time_periods orig off true (Some T) (Some col) = Ok (out, lg1) /\
    (forall n tr pf, In (n, tr) t65 -> frame_of off tr = Some pf -> dict_get n pd = Some pf) /\
    (forall n, (forall tr, In (n, tr) t65 -> frame_of off tr = None) ->
               dict_get n pd = dict_get n out).
Proof.
  intros Hnd; unfold combined_period_data.
  destruct (filter_time_periods orig off true (Some T) (Some col)) as [[out lg1]|e];
    simpl; [|discriminate].
  rewrite filter_time_periods_no_align, extract_periods_closed by exact Hnd; simpl.
  intros [= <- _]; exists out, lg1; split; [reflexivity|split].
  - intros n tr pf Hin Hf.
    rewrite dict_merge_get by (apply extracted_frames_NoDup; exact Hnd).
    rewrite (In_dict_get _ _ _ (extracted_frames_NoDup _ _ Hnd) (extracted_frames_In _ _ _ _ _ Hin Hf)).
    reflexivity.
  - intros n Hn.
    rewrite dict_merge_get by (apply extracted_frames_NoDup; exact Hnd).
    rewrite (dict_get_none _ _ (extracted_frames_absent _ _ _ Hn)); reflexivity.
Qed.

Lemma combined_period_data_lookup_witness :
  exists pd lg,
    NoDup (map fst Samples.batch_BORO) /\
    combined_period_data Samples.batch_A Samples.batch_BORO 120 44 "bottom"%string = Ok (pd, lg) /\
    exists out lg1,
      filter_time_periods Samples.batch_A 120 true (Some 44) (Some "bottom"%string) = Ok (out, lg1) /\
      (forall n tr pf, In (n, tr) Samples.batch_BORO -> frame_of 120 tr = Some pf ->
                       dict_get n pd = Some pf) /\
      (forall n, (forall tr, In (n, tr) Samples.batch_BORO -> frame_of 120 tr = None) ->
                 dict_get n pd = dict_get n out).
Proof.
  assert (Hnd : NoDup (map fst Samples.batch_BORO)) by (simpl; constructor; [intros []|constructor]).
  destruct (combined_period_data Samples.batch_A Samples.batch_BORO 120 44 "bottom"%string)
    as [[pd lg]|e] eqn:Hc; [|vm_compute in Hc; discriminate].
  exists pd, lg; split; [exact Hnd|split; [reflexivity|]].
  exact (combined_period_data_lookup _ _ _ _ _ _ _ Hnd Hc).
Defined.

(** ** Windows of the plotted lines *)

Lemma filter_plot_line lo hi lo' hi' col df :
  filter (fun xy => Z.leb lo' (fst xy) && Z.leb (fst xy) hi') (plot_line lo hi col df) =
  plot_line (Z.max lo lo') (Z.min hi hi') col df.
Proof.
  unfold plot_line; induction (pf_rows df) as [|r rows IH]; simpl; [reflexivity|].
  repeat (match goal with |- context [Z.leb ?a ?b] => destruct (Z.leb_spec a b) end;
          cbn [andb filter map fst]).
  all: rewrite ?IH; try reflexivity; lia.
Qed.

(** X: a line of the shorter figures of [create_shorter_version] is the
    period's data plotted directly with the window cut down to
    [[max(min_seconds, -60), min(max_seconds, mins*60)]]. *)
Theorem clip_plot_line lo hi col df mins :
  clip_line mins (plot_line lo hi col df) = plot_line (Z.max lo (-60)) (Z.min hi (mins * 60)) col df.
Proof. unfold clip_line; apply filter_plot_line. Qed.

Lemma focus_lines_app m l1 l2 :
  focus_lines m (l1 ++ l2) = (focus_lines m l1 ++ focus_lines m l2)%list.
Proof. unfold focus_lines; rewrite filter_app, map_app; reflexivity. Qed.

(** X: the focused 65°C figure of figure_indoorheating_combined.py keeps,
    of the lines of a subplot, exactly those of the periods 'CAF2x4_65c'
    and 'BOROx4_65c' (when present, in that order), each cut to
    [[max(min_seconds, -30), min(max_seconds, mins_end*60)]]. *)
Theorem focused_version_lines mins_end lo hi col pd :
  focus_lines mins_end (combined_lines lo hi col pd) =
  flat_map (fun period_name =>
              match dict_get period_name pd with
              | Some df => [{| l_label := label_of period_name;
                               l_points := plot_line (Z.max lo (-30)) (Z.min hi (mins_end * 60)) col df |}]
              | None => []
              end) ["CAF2x4_65c"; "BOROx4_65c"]%string.
Proof.
  unfold combined_lines, ordered_periods; simpl flat_map.
  rewrite !focus_lines_app.
  destruct (dict_get "NOPANE"%string pd), (dict_get "CAF2"%string pd), (dict_get "CAF2x4"%string pd),
           (dict_get "CAF2x4_65c"%string pd), (dict_get "BORO"%string pd), (dict_get "BOROx4"%string pd),
           (dict_get "BOROx4_65c"%string pd);
    unfold focus_lines; simpl; rewrite ?filter_plot_line; reflexivity.
Qed.

(** ** adjust_color *)











(** X: for the two periods of figure_indoorheating_65c.py, 'BOROx4' and
    'CAF2x4', and a darkness above 1.0 (the script uses 1.25), its local
    [adjust_color], which has no darkness test, gives the same color as
    the one of utils.py. *)
Theorem adjust_color_65c_agrees temp_columns base_color darkness sensor_col period_name :
  In period_name ["BOROx4"; "CAF2x4"]%string -> PrimFloat.ltb 1.0%float darkness = true ->
  adjust_color_65c temp_columns base_color darkness sensor_col period_name =
  adjust_color base_color darkness sensor_col period_name temp_columns.
Proof.
  intros Hp Hd; unfold adjust_color_65c, adjust_color.
  destruct (nth_error temp_columns 3) as [c3|]; [|reflexivity].
  destruct (String.eqb sensor_col c3); [|rewrite Hd; reflexivity].
  destruct Hp as [<-|[<-|[]]]; reflexivity.
Qed.

Lemma adjust_color_65c_agrees_witness :
  In "CAF2x4"%string ["BOROx4"; "CAF2x4"]%string /\ PrimFloat.ltb 1.0%float 1.25%float = true /\
  adjust_color_65c ["air"; "top"; "black"; "bottom"]%string "#FF0000" 1.25%float "black" "CAF2x4" =
  adjust_color "#FF0000" 1.25%float "black" "CAF2x4" ["air"; "top"; "black"; "bottom"]%string.
Proof.
  assert (H1 : In "CAF2x4"%string ["BOROx4"; "CAF2x4"]%string) by (right; left; reflexivity).
  assert (H2 : PrimFloat.ltb 1.0%float 1.25%float = true) by reflexivity.
  split; [exact H1|split; [exact H2|]].
  exact (adjust_color_65c_agrees _ _ _ _ _ H1 H2).
Defined.

(** ** filter_time_periods *)




Lemma relative_rows_In off t0 rows s :
  In s (relative_rows off t0 rows) ->
  In (pr_row s) rows /\ pr_seconds s = r_time (pr_row s) - t0 - off.
Proof.
  unfold relative_rows; intros Hs; apply in_map_iff in Hs as (r & <- & Hr); simpl; auto.
Qed.

(** X: when [filter_time_periods] aligns (it printed no skip warning),
    every sample of a returned period sits at its timestamp minus the
    timestamp of one sample of that period's selection, the reference
    sample: the pre-roll offset and the first timestamp drop out. *)
Theorem aligned_seconds_since_reference tps off t c out lg :
  filter_time_periods tps off true (Some t) (Some c) = Ok (out, lg) ->
  ~ In WarnSkip lg ->
  forall n pf, In (n, pf) out ->
  exists tr s, In (n, tr) tps /\ In s (selection off tr) /\
               Forall (fun r => pr_seconds r = r_time (pr_row r) - r_time s) (pf_rows pf).
Proof.
  unfold filter_time_periods.
  destruct (collect off true (Some t) (Some c) st_init tps) as [st|e] eqn:Hc; simpl;
    [|discriminate].
  destruct (all_found (reference_points st)).
  2: intros [= _ <-] Hw; exfalso; apply Hw, in_or_app; right; left; reflexivity.
  destruct (Nat.eqb _ 0); [discriminate|].
  destruct (shift_periods (reference_points st) (period_data st)) as [[o l]|e] eqn:Hs;
    simpl; [|discriminate].
  intros [= <- _] _ n pf Hin.
  apply shift_periods_ok in Hs.
  destruct (Forall2_In_r _ _ _ _ Hs Hin) as ([k pf0] & Hk & Hn & r & Hr & Hpf); simpl in *; subst k pf.
  destruct (collect_frames _ _ _ _ _ _ _ Hc _ _ Hk) as [[]|(tr & Htr & Hf)].
  destruct (align_lookup _ _ _ _ _ (collect_align _ _ _ _ _ _ Hc (AlignInv_init c t)) Hk)
    as (v & Hv & Hrv).
  rewrite Hr in Hv; injection Hv as <-.
  destruct (refval_some _ _ _ _ Hrv) as (s & Hs0 & Hsec).
  destruct (frame_of_rows _ _ _ Hf) as (r0 & rest & Hsel & _ & Hrows).
  rewrite Hrows in Hs0; apply relative_rows_In in Hs0 as [Hs0 Hs0sec].
  exists tr, (pr_row s); split; [exact Htr|split; [rewrite Hsel; exact Hs0|]].
  unfold shift_frame; simpl; rewrite Hrows.
  apply Forall_forall; intros x Hx; apply in_map_iff in Hx as (x0 & <- & Hx0); simpl.
  apply relative_rows_In in Hx0 as [_ Hx0]; lia.
Qed.

Lemma aligned_seconds_since_reference_witness :
  exists out lg,
    filter_time_periods Samples.batch_A 120 true (Some 44) (Some "bottom"%string) = Ok (out, lg) /\
    ~ In WarnSkip lg /\
    forall n pf, In (n, pf) out ->
    exists tr s, In (n, tr) Samples.batch_A /\ In s (selection 120 tr) /\
                 Forall (fun r => pr_seconds r = r_time (pr_row r) - r_time s) (pf_rows pf).
Proof.
  destruct (filter_time_periods Samples.batch_A 120 true (Some 44) (Some "bottom"%string))
    as [[out lg]|e] eqn:Hf; [|vm_compute in Hf; discriminate].
  assert (Hw : ~ In WarnSkip lg).
  { vm_compute in Hf; injection Hf as _ <-; simpl; intuition discriminate. }
  exists out, lg; split; [reflexivity|split; [exact Hw|]].
  exact (aligned_seconds_since_reference _ _ _ _ _ _ Hf Hw).
Defined.

(** X: in every mode, the names [filter_time_periods] returns are exactly
    the names of the periods whose window holds a sample, and each
    returned frame holds that period's selected source rows, in order,
    with their sensor values, under the source table's columns. *)
Theorem filter_time_periods_frames tps off a t c out lg :
  NoDup (map fst tps) ->
  filter_time_periods tps off a t c = Ok (out, lg) ->
  (forall n, In n (map fst out) <-> exists tr, In (n, tr) tps /\ selection off tr <> []) /\
  (forall n tr pf, In (n, tr) tps -> In (n, pf) out ->
     map pr_row (pf_rows pf) = selection off tr /\ pf_columns pf = df_columns (p_data tr)).
Proof.
  intros Hnd Hf; split.
  - intros n; split.
    + intros Hn; apply in_map_iff in Hn as ([n' pf] & Hn & Hin); simpl in Hn; subst n'.
      destruct (filter_time_periods_out _ _ _ _ _ _ _ Hf) as (st & Hc & HF).
      destruct (Forall2_In_r _ _ _ _ HF Hin) as ([n' pf0] & Hpf0 & Hk & _); simpl in Hk; subst n'.
      destruct (collect_frames _ _ _ _ _ _ _ Hc _ _ Hpf0) as [[]|(tr & Htr & Hfr)].
      exists tr; split; [exact Htr|].
      destruct (frame_of_rows _ _ _ Hfr) as (r0 & rest & -> & _); discriminate.
    + intros (tr & Htr & Hne).
      destruct (out_complete _ _ _ _ _ _ _ _ _ Hf Htr) as [pf Hpf];
        [unfold frame_of; destruct (selection off tr); [contradiction|discriminate]|].
      exact (in_map fst _ _ Hpf).
  - intros n tr pf Htr Hpf.
    destruct (out_entry _ _ _ _ _ _ _ _ _ _ Hnd Hf Htr Hpf) as (pf0 & Hf0 & Hcols & Hrows & _).
    destruct (frame_of_rows _ _ _ Hf0) as (r0 & rest & Hsel & Hc0 & Hr).
    split; [rewrite Hrows, Hr, relative_rows_row, Hsel; reflexivity|congruence].
Qed.

Lemma filter_time_periods_frames_witness :
  exists out lg,
    NoDup (map fst Samples.batch_AB) /\
    filter_time_periods Samples.batch_AB 120 false None None = Ok (out, lg) /\
    (forall n, In n (map fst out) <->
               exists tr, In (n, tr) Samples.batch_AB /\ selection 120 tr <> []) /\
    (forall n tr pf, In (n, tr) Samples.batch_AB -> In (n, pf) out ->
       map pr_row (pf_rows pf) = selection 120 tr /\ pf_columns pf = df_columns (p_data tr)).
Proof.
  assert (Hnd : NoDup (map fst Samples.batch_AB)).
  { simpl; constructor; [simpl; intros [H|[]]; discriminate|constructor; [intros []|constructor]]. }
  destruct (filter_time_periods Samples.batch_AB 120 false None None) as [[out lg]|e] eqn:Hf;
    [|vm_compute in Hf; discriminate].
  exists out, lg; split; [exact Hnd|split; [reflexivity|]].
  exact (filter_time_periods_frames _ _ _ _ _ _ _ Hnd Hf).
Defined.
End Extras.
